(** * Experiment Terminator: a shallow embedding of [experiment_terminator.py]
      and of the decision rule of [app.py].

    Conventions of the embedding.

    - Python [int]s are [Z].  Sample counts ([mc_samples], the [size] argument
      of the samplers) are [nat].
    - Python and NumPy floating-point values are [pyfloat]: an exact rational
      or one of the IEEE special values [+inf], [-inf], [nan].  Finite
      arithmetic is exact (no rounding); the special values arise and
      propagate as in IEEE 754 (division by zero, [inf - inf], ...).  There
      is a single zero, the positive one: the draws that can be zero here are
      non-negative.
    - NumPy one-dimensional arrays are lists.
    - [np.random] is an interface ([NumpyRandom]): the draws are arbitrary
      values in the range the distribution allows.  The parameter checks that
      NumPy performs before it draws are part of the model.
    - Methods run in a state-and-exception monad over a [world] holding the
      [ExperimentTerminator] object, the generator state and the trace of the
      sampler calls made so far. *)

From Stdlib Require Import String.
From Stdlib Require Import ZArith QArith Qround Lqa Lia Bool Arith List Sorted.
Import ListNotations.

Local Open Scope Q_scope.

(** ** Floating-point values *)

Inductive pyfloat : Type :=
| Fin (q : Q)
| PInf
| NInf
| NaN.

Definition fneg (x : pyfloat) : pyfloat :=
  match x with
  | Fin q => Fin (- q)
  | PInf => NInf
  | NInf => PInf
  | NaN => NaN
  end.

Definition fadd (x y : pyfloat) : pyfloat :=
  match x, y with
  | NaN, _ | _, NaN => NaN
  | PInf, NInf | NInf, PInf => NaN
  | PInf, _ | _, PInf => PInf
  | NInf, _ | _, NInf => NInf
  | Fin p, Fin q => Fin (p + q)
  end.

Definition fsub (x y : pyfloat) : pyfloat := fadd x (fneg y).

(** Sign of a rational: [Lt], [Eq] or [Gt] as it is below, at or above 0. *)
Definition Qsign (q : Q) : comparison := q ?= 0.

Definition inf_of_sign (s : comparison) : pyfloat :=
  match s with
  | Gt => PInf
  | Lt => NInf
  | Eq => NaN
  end.

Definition sign_mul (s t : comparison) : comparison :=
  match s, t with
  | Eq, _ | _, Eq => Eq
  | Gt, Gt | Lt, Lt => Gt
  | _, _ => Lt
  end.

Definition fsign (x : pyfloat) : option comparison :=
  match x with
  | Fin q => Some (Qsign q)
  | PInf => Some Gt
  | NInf => Some Lt
  | NaN => None
  end.

Definition fmul (x y : pyfloat) : pyfloat :=
  match x, y with
  | Fin p, Fin q => Fin (p * q)
  | _, _ =>
      match fsign x, fsign y with
      | Some s, Some t => inf_of_sign (sign_mul s t)
      | _, _ => NaN
      end
  end.

(** Division.  A finite non-zero value divided by zero is an infinity of the
    sign of the numerator, [0 / 0] is [nan]; no exception is raised (NumPy
    only emits a warning). *)
Definition fdiv (x y : pyfloat) : pyfloat :=
  match x, y with
  | NaN, _ | _, NaN => NaN
  | Fin p, Fin q =>
      if Qeq_bool q 0 then inf_of_sign (Qsign p) else Fin (p / q)
  | Fin _, _ => Fin 0
  | _, Fin q =>
      match fsign x with
      | Some s => inf_of_sign (sign_mul s (if Qeq_bool q 0 then Gt else Qsign q))
      | None => NaN
      end
  | _, _ => NaN
  end.

(** Comparisons: every comparison with [nan] is false. *)
Definition fltb (x y : pyfloat) : bool :=
  match x, y with
  | NaN, _ | _, NaN => false
  | Fin p, Fin q => match p ?= q with Lt => true | _ => false end
  | NInf, NInf => false
  | NInf, _ => true
  | _, PInf => match x with PInf => false | _ => true end
  | _, _ => false
  end.

Definition fgtb (x y : pyfloat) : bool := fltb y x.

Definition fleb (x y : pyfloat) : bool :=
  match x, y with
  | NaN, _ | _, NaN => false
  | Fin p, Fin q => match p ?= q with Gt => false | _ => true end
  | NInf, _ => true
  | _, PInf => true
  | _, _ => false
  end.

Definition fgeb (x y : pyfloat) : bool := fleb y x.

Definition is_nan (x : pyfloat) : bool :=
  match x with NaN => true | _ => false end.

Definition is_finite (x : pyfloat) : bool :=
  match x with Fin _ => true | _ => false end.


(** Equality of floating-point values as numbers: rationals up to [Qeq]. *)
Definition feq (x y : pyfloat) : Prop :=
  match x, y with
  | Fin p, Fin q => p == q
  | PInf, PInf | NInf, NInf | NaN, NaN => True
  | _, _ => False
  end.

(** A probability: a finite value in the closed interval [[0, 1]]. *)
Definition in_unit_interval (x : pyfloat) : Prop :=
  match x with
  | Fin q => 0 <= q <= 1
  | _ => False
  end.

Definition in_unit_intervalb (x : pyfloat) : bool :=
  fleb (Fin 0) x && fleb x (Fin 1).

(** ** Exceptions and results *)

Inductive exn : Type :=
| ValueError
| ZeroDivisionError
| IndexError.

Inductive result (A : Type) : Type :=
| Ok (a : A)
| Raise (e : exn).
Arguments Ok {A} a.
Arguments Raise {A} e.

Definition rbind {A B} (r : result A) (k : A -> result B) : result B :=
  match r with
  | Ok a => k a
  | Raise e => Raise e
  end.

(** ** NumPy array operations *)

(** Elementwise binary operation with NumPy's broadcasting of one-dimensional
    operands: equal lengths pair up, an operand of length one is repeated,
    any other pair of shapes is a [ValueError]. *)
Fixpoint zip_with {A B C} (f : A -> B -> C) (xs : list A) (ys : list B) : list C :=
  match xs, ys with
  | x :: xs', y :: ys' => f x y :: zip_with f xs' ys'
  | _, _ => []
  end.

Definition broadcast2 {A B C} (f : A -> B -> C) (xs : list A) (ys : list B)
  : result (list C) :=
  if Nat.eqb (length xs) (length ys) then Ok (zip_with f xs ys)
  else match xs, ys with
       | [x], _ => Ok (map (f x) ys)
       | _, [y] => Ok (map (fun x => f x y) xs)
       | _, _ => Raise ValueError
       end.

Definition np_sub := broadcast2 fsub.
Definition np_div := broadcast2 fdiv.

(** [arr >= 0]: the boolean array of the elementwise comparison. *)
Definition np_ge_zero (xs : list pyfloat) : list bool :=
  map (fun x => fgeb x (Fin 0)) xs.

Definition float_of_bool (b : bool) : pyfloat := if b then Fin 1 else Fin 0.

Definition np_sum (xs : list pyfloat) : pyfloat := fold_left fadd xs (Fin 0).

(** [np.mean]: the sum divided by the number of elements; [nan] for an empty
    array. *)
Definition np_mean (xs : list pyfloat) : pyfloat :=
  fdiv (np_sum xs) (Fin (inject_Z (Z.of_nat (length xs)))).

Definition np_mean_bool (bs : list bool) : pyfloat :=
  np_mean (map float_of_bool bs).

Definition np_zeros (n : nat) : list pyfloat := repeat (Fin 0) n.

(** [arr[i]] and [arr[i] = v] for a natural index: [IndexError] out of range. *)
Definition getitem {A} (xs : list A) (i : nat) : result A :=
  match nth_error xs i with
  | Some x => Ok x
  | None => Raise IndexError
  end.

Fixpoint list_set {A} (xs : list A) (i : nat) (v : A) : list A :=
  match xs, i with
  | [], _ => []
  | _ :: xs', O => v :: xs'
  | x :: xs', S i' => x :: list_set xs' i' v
  end.

Definition setitem {A} (xs : list A) (i : nat) (v : A) : result (list A) :=
  if Nat.ltb i (length xs) then Ok (list_set xs i v) else Raise IndexError.

(** ** [np.quantile] with the default (linear) method *)

Fixpoint insert_sorted (x : pyfloat) (xs : list pyfloat) : list pyfloat :=
  match xs with
  | [] => [x]
  | y :: ys => if fleb x y then x :: xs else y :: insert_sorted x ys
  end.

Definition np_sort (xs : list pyfloat) : list pyfloat :=
  fold_right insert_sorted [] xs.

(** NumPy's [_lerp]: [a + (b - a) * t], recomputed as [b - (b - a) * (1 - t)]
    where [t >= 0.5]. *)
Definition lerp (a b t : pyfloat) : pyfloat :=
  let diff_b_a := fsub b a in
  if fgeb t (Fin (1 # 2))
  then fsub b (fmul diff_b_a (fsub (Fin 1) t))
  else fadd a (fmul diff_b_a t).

(** One quantile of a sorted array of [n >= 1] values without [nan]: the
    virtual index [(n - 1) * q], the two neighbouring positions (the upper
    one clipped to the last position) and the interpolation between them. *)
Definition quantile_sorted (sorted : list pyfloat) (q : Q) : pyfloat :=
  let n := length sorted in
  let virtual_index := inject_Z (Z.of_nat (n - 1)) * q in
  let previous_index := Qfloor virtual_index in
  let gamma := virtual_index - inject_Z previous_index in
  let lo := Z.to_nat previous_index in
  let hi := Nat.min (lo + 1) (n - 1) in
  lerp (nth lo sorted NaN) (nth hi sorted NaN) (Fin gamma).

Definition valid_quantile (q : pyfloat) : option Q :=
  match q with
  | Fin r => if Qle_bool 0 r && Qle_bool r 1 then Some r else None
  | _ => None
  end.

Fixpoint all_some {A} (xs : list (option A)) : option (list A) :=
  match xs with
  | [] => Some []
  | Some x :: xs' =>
      match all_some xs' with
      | Some ys => Some (x :: ys)
      | None => None
      end
  | None :: _ => None
  end.

(** [np.quantile(arr, qs)] for a one-dimensional [arr] and a list [qs]:
    [ValueError] unless every requested quantile lies in [[0, 1]]; [nan] for
    every quantile as soon as the data hold a [nan].  The empty array (never
    passed by the code embedded here) is given [IndexError]. *)
Definition np_quantile (arr : list pyfloat) (qs : list pyfloat)
  : result (list pyfloat) :=
  match all_some (map valid_quantile qs) with
  | None => Raise ValueError
  | Some rs =>
      match arr with
      | [] => Raise IndexError
      | _ =>
          if existsb is_nan arr then Ok (map (fun _ => NaN) rs)
          else Ok (map (quantile_sorted (np_sort arr)) rs)
      end
  end.

(** ** The object, the generator and the monad *)

Record ExperimentTerminator : Type := {
  mc_samples : nat;
  alpha : pyfloat
}.

(** [ExperimentTerminator.__init__] *)
Definition __init__ : ExperimentTerminator :=
  {| mc_samples := 5000; alpha := Fin (5 # 100) |}.

(** The interface of [np.random] used by the program: one draw from a Beta
    and one from a Binomial distribution, each advancing the generator
    state.  The laws say only that a draw lies in the support of its
    distribution. *)
Class NumpyRandom (G : Type) : Type := {
  beta_draw : Z -> Z -> G -> Q * G;
  binomial_draw : Z -> Q -> G -> Z * G;
  beta_draw_range : forall a b g,
    (0 < a)%Z -> (0 < b)%Z ->
    0 <= fst (beta_draw a b g) <= 1;
  binomial_draw_range : forall n p g,
    (0 <= n)%Z -> 0 <= p <= 1 ->
    (0 <= fst (binomial_draw n p g) <= n)%Z
}.

(** One entry of the trace per sampler call that returned: its arguments and
    the array it produced. *)
Inductive call : Type :=
| BetaCall (a b : Z) (size : nat) (out : list pyfloat)
| BinomialCall (n : Z) (p : list pyfloat) (size : nat) (out : list Z).

Record AnalysisResult : Type := {
  conversion_rate_a : pyfloat;
  conversion_rate_b : pyfloat;
  expected_lift : pyfloat;
  pr_b_gt_a : pyfloat;
  pr_reject_null : pyfloat;
  posterior_lift : list pyfloat
}.

(** Python's [/] on two [int]s. *)
Definition py_truediv (a b : Z) : result pyfloat :=
  if (b =? 0)%Z then Raise ZeroDivisionError
  else Ok (Fin (inject_Z a / inject_Z b)).

Section Engine.

Context {G : Type} `{NumpyRandom G}.

Record world : Type := {
  self : ExperimentTerminator;
  gen : G;
  trace : list call
}.

Definition M (A : Type) : Type := world -> result A * world.

Definition ret {A} (a : A) : M A := fun w => (Ok a, w).

Definition bind {A B} (c : M A) (k : A -> M B) : M B :=
  fun w =>
    match c w with
    | (Ok a, w') => k a w'
    | (Raise e, w') => (Raise e, w')
    end.

Definition lift_result {A} (r : result A) : M A := fun w => (r, w).

Definition get_self : M ExperimentTerminator := fun w => (Ok (self w), w).

Notation "x <- c ;; k" := (bind c (fun x => k))
  (at level 61, c at next level, right associativity).

(** [size] successive draws. *)
Fixpoint beta_draws (a b : Z) (size : nat) (g : G) : list Q * G :=
  match size with
  | O => ([], g)
  | S n =>
      let (x, g1) := beta_draw a b g in
      let (xs, g2) := beta_draws a b n g1 in
      (x :: xs, g2)
  end.

Fixpoint binomial_draws (n : Z) (ps : list Q) (g : G) : list Z * G :=
  match ps with
  | [] => ([], g)
  | p :: ps' =>
      let (k, g1) := binomial_draw n p g in
      let (ks, g2) := binomial_draws n ps' g1 in
      (k :: ks, g2)
  end.

(** [np.random.beta(a, b, size)]: [ValueError] when a shape parameter is not
    positive. *)
Definition np_random_beta (a b : Z) (size : nat) : M (list pyfloat) :=
  fun w =>
    if ((a <=? 0) || (b <=? 0))%Z then (Raise ValueError, w)
    else
      let (xs, g') := beta_draws a b size (gen w) in
      let out := map Fin xs in
      (Ok out,
       {| self := self w; gen := g';
          trace := trace w ++ [BetaCall a b size out] |}).

Definition valid_probability (p : pyfloat) : option Q :=
  match p with
  | Fin r => if Qle_bool 0 r && Qle_bool r 1 then Some r else None
  | _ => None
  end.

(** The array [p] of success probabilities broadcast to [size] entries. *)
Definition broadcast_to {A} (xs : list A) (size : nat) : option (list A) :=
  if Nat.eqb (length xs) size then Some xs
  else match xs with
       | [x] => Some (repeat x size)
       | _ => None
       end.

(** [np.random.binomial(n, p, size)] with an array [p]: [ValueError] when
    [n < 0], when some [p] is outside [[0, 1]] or [nan], or when [p] cannot
    be broadcast to [size] entries. *)
Definition np_random_binomial (n : Z) (p : list pyfloat) (size : nat)
  : M (list Z) :=
  fun w =>
    match all_some (map valid_probability p) with
    | None => (Raise ValueError, w)
    | Some ps =>
        if (n <? 0)%Z then (Raise ValueError, w)
        else match broadcast_to ps size with
             | None => (Raise ValueError, w)
             | Some ps' =>
                 let (ks, g') := binomial_draws n ps' (gen w) in
                 (Ok ks,
                  {| self := self w; gen := g';
                     trace := trace w ++ [BinomialCall n p size ks] |})
             end
    end.

(** ** The methods of [ExperimentTerminator] *)

Definition get_posterior_samples
  (completed_trials_a completed_trials_b successes_a successes_b : Z)
  : M (list pyfloat * list pyfloat) :=
  slf <- get_self ;;
  posterior_samples_a <-
    np_random_beta successes_a (completed_trials_a - successes_a)
                   (mc_samples slf) ;;
  slf <- get_self ;;
  posterior_samples_b <-
    np_random_beta successes_b (completed_trials_b - successes_b)
                   (mc_samples slf) ;;
  ret (posterior_samples_a, posterior_samples_b).

(** The test of line 89: [interval[0] > 0 or interval[1] < 0]. *)
Definition interval_excludes_zero (lo hi : pyfloat) : bool :=
  fgtb lo (Fin 0) || fltb hi (Fin 0).

(** The body of the [for] loop for the index [i], acting on the array
    [rejection]. *)
Definition rejection_step
  (planned_trials_a planned_trials_b : Z)
  (potential_successes_a potential_successes_b : list Z)
  (i : nat) (rejection : list pyfloat) : M (list pyfloat) :=
  ps_a <- lift_result (getitem potential_successes_a i) ;;
  slf <- get_self ;;
  post_samples_a <-
    np_random_beta (ps_a + 1) (planned_trials_a - ps_a + 1) (mc_samples slf) ;;
  ps_b <- lift_result (getitem potential_successes_b i) ;;
  slf <- get_self ;;
  post_samples_b <-
    np_random_beta (ps_b + 1) (planned_trials_b - ps_b + 1) (mc_samples slf) ;;
  post_samples_b_minus_a <- lift_result (np_sub post_samples_b post_samples_a) ;;
  slf <- get_self ;;
  interval <-
    lift_result
      (np_quantile post_samples_b_minus_a
         [fdiv (alpha slf) (Fin 2);
          fsub (Fin 1) (fdiv (alpha slf) (Fin 2))]) ;;
  lo <- lift_result (getitem interval 0) ;;
  hi <- lift_result (getitem interval 1) ;;
  if interval_excludes_zero lo hi
  then lift_result (setitem rejection i (Fin 1))
  else ret rejection.

Fixpoint rejection_loop
  (planned_trials_a planned_trials_b : Z)
  (potential_successes_a potential_successes_b : list Z)
  (range : list nat) (rejection : list pyfloat) : M (list pyfloat) :=
  match range with
  | [] => ret rejection
  | i :: range' =>
      rejection' <-
        rejection_step planned_trials_a planned_trials_b
                       potential_successes_a potential_successes_b
                       i rejection ;;
      rejection_loop planned_trials_a planned_trials_b
                     potential_successes_a potential_successes_b
                     range' rejection'
  end.

Definition get_prob_reject_null
  (planned_trials_a planned_trials_b
   completed_trials_a completed_trials_b
   successes_a successes_b : Z)
  (posterior_samples_a posterior_samples_b : list pyfloat) : M pyfloat :=
  slf <- get_self ;;
  potential_successes_a <-
    np_random_binomial (planned_trials_a - completed_trials_a)
                       posterior_samples_a (mc_samples slf) ;;
  let potential_successes_a :=
    map (fun k => (k + successes_a)%Z) potential_successes_a in
  slf <- get_self ;;
  potential_successes_b <-
    np_random_binomial (planned_trials_b - completed_trials_b)
                       posterior_samples_b (mc_samples slf) ;;
  let potential_successes_b :=
    map (fun k => (k + successes_b)%Z) potential_successes_b in
  slf <- get_self ;;
  let rejection := np_zeros (mc_samples slf) in
  slf <- get_self ;;
  rejection <-
    rejection_loop planned_trials_a planned_trials_b
                   potential_successes_a potential_successes_b
                   (seq 0 (mc_samples slf)) rejection ;;
  ret (np_mean rejection).

Definition analyze_experiment
  (planned_trials_a planned_trials_b
   completed_trials_a completed_trials_b
   successes_a successes_b : Z) : M AnalysisResult :=
  posterior_samples <-
    get_posterior_samples completed_trials_a completed_trials_b
                          successes_a successes_b ;;
  diff <- lift_result (np_sub (snd posterior_samples) (fst posterior_samples)) ;;
  posterior_lift <- lift_result (np_div diff (fst posterior_samples)) ;;
  conversion_rate_a <- lift_result (py_truediv successes_a completed_trials_a) ;;
  conversion_rate_b <- lift_result (py_truediv successes_b completed_trials_b) ;;
  let expected_lift := np_mean posterior_lift in
  let pr_b_gt_a := np_mean_bool (np_ge_zero posterior_lift) in
  pr_reject_null <-
    get_prob_reject_null planned_trials_a planned_trials_b
                         completed_trials_a completed_trials_b
                         successes_a successes_b
                         (fst posterior_samples) (snd posterior_samples) ;;
  ret {| conversion_rate_a := conversion_rate_a;
         conversion_rate_b := conversion_rate_b;
         expected_lift := expected_lift;
         pr_b_gt_a := pr_b_gt_a;
         pr_reject_null := pr_reject_null;
         posterior_lift := posterior_lift |}.

End Engine.

(** ** The decision rule of [app.py] (lines 33 to 50) *)

Record display : Type := {
  conclusion_markdown : string;
  image : string
}.

Definition app_conclusion (exp_output : AnalysisResult) : display :=
  let exp_output_3 := pr_b_gt_a exp_output in
  let exp_output_4 := pr_reject_null exp_output in
  if fltb exp_output_4 (Fin (1 # 100)) || fgtb exp_output_4 (Fin (99 # 100))
  then
    let outstring := "## Experiment can be terminated. "%string in
    let outstring :=
      if fltb exp_output_4 (Fin (1 # 100))
      then (outstring ++
            "No difference between experiment and control will be found.")%string
      else if fgtb exp_output_3 (Fin (5 # 10))
           then (outstring ++ "Test is superior to control.")%string
           else (outstring ++ "Control is superior to test.")%string in
    {| conclusion_markdown := outstring;
       image := "images/terminator_okay.gif" |}
  else
    {| conclusion_markdown := "## Experiment should not be terminated.";
       image := "images/thou_shalt_not_terminate.jpeg" |}.

(** The classifications, named after what the rule displays. *)
Inductive classification : Type :=
| TerminateNoDifferenceExpected
| TerminateTestSuperior
| TerminateControlSuperior
| ContinueNotYetTerminable.

Definition displayed (c : classification) : display :=
  match c with
  | TerminateNoDifferenceExpected =>
      {| conclusion_markdown :=
           "## Experiment can be terminated. No difference between experiment and control will be found.";
         image := "images/terminator_okay.gif" |}
  | TerminateTestSuperior =>
      {| conclusion_markdown :=
           "## Experiment can be terminated. Test is superior to control.";
         image := "images/terminator_okay.gif" |}
  | TerminateControlSuperior =>
      {| conclusion_markdown :=
           "## Experiment can be terminated. Control is superior to test.";
         image := "images/terminator_okay.gif" |}
  | ContinueNotYetTerminable =>
      {| conclusion_markdown := "## Experiment should not be terminated.";
         image := "images/thou_shalt_not_terminate.jpeg" |}
  end.

(** ** A concrete generator: draws read off a tape

    The generator state is a list of rationals.  A Beta draw is the next
    entry clipped to [[0, 1]], except that an end of the interval is only
    kept where NumPy's sampler can reach it: [0] with a first shape
    parameter of [1] and [1] with a second shape parameter of [1] (a Gamma
    variate of shape [1] is drawn as [-log(1 - U)] with [U] in [[0, 1)],
    which is [0] at [U = 0], and the Beta draw [Ga / (Ga + Gb)] is then [0]
    or [1]); at any other shape the entry is replaced by [1/2].  A Binomial
    draw is the next entry scaled by [n], rounded down and clipped to
    [[0, n]].  An exhausted tape yields [1/2] and [0]. *)
Module Tape.

Definition clip01 (u : Q) : Q :=
  if Qle_bool u 0 then 0 else if Qle_bool 1 u then 1 else u.

Definition within_support (a b : Z) (v : Q) : Q :=
  if Qeq_bool v 0 && negb (a =? 1)%Z then 1 # 2
  else if Qeq_bool v 1 && negb (b =? 1)%Z then 1 # 2
  else v.

Definition next_beta (a b : Z) (g : list Q) : Q * list Q :=
  match g with
  | [] => (1 # 2, [])
  | u :: g' => (within_support a b (clip01 u), g')
  end.

Definition next_binomial (n : Z) (p : Q) (g : list Q) : Z * list Q :=
  match g with
  | [] => (Z.max 0 (Z.min n 0), [])
  | u :: g' => (Z.max 0 (Z.min n (Qfloor (u * inject_Z n))), g')
  end.

Lemma clip01_range (u : Q) : 0 <= clip01 u <= 1.
Proof.
  unfold clip01.
  destruct (Qle_bool u 0) eqn:E0; [lra|].
  destruct (Qle_bool 1 u) eqn:E1; [lra|].
  assert (~ u <= 0) by (rewrite <- Qle_bool_iff; congruence).
  assert (~ 1 <= u) by (rewrite <- Qle_bool_iff; congruence).
  lra.
Qed.

Lemma next_beta_range (a b : Z) (g : list Q) :
  (0 < a)%Z -> (0 < b)%Z -> 0 <= fst (next_beta a b g) <= 1.
Proof.
  intros _ _. destruct g as [|u g']; simpl; [lra|].
  pose proof (clip01_range u) as Hu. unfold within_support.
  destruct (Qeq_bool (clip01 u) 0 && negb (a =? 1)%Z); [lra|].
  destruct (Qeq_bool (clip01 u) 1 && negb (b =? 1)%Z); lra.
Qed.

Lemma next_binomial_range (n : Z) (p : Q) (g : list Q) :
  (0 <= n)%Z -> 0 <= p <= 1 -> (0 <= fst (next_binomial n p g) <= n)%Z.
Proof.
  intros Hn _. destruct g as [|u g']; simpl; lia.
Qed.

#[global] Instance tape_random : NumpyRandom (list Q) := {|
  beta_draw := next_beta;
  binomial_draw := next_binomial;
  beta_draw_range := next_beta_range;
  binomial_draw_range := next_binomial_range
|}.

(** A world for the object [slf] whose generator reads the tape [g]. *)
Definition start (slf : ExperimentTerminator) (g : list Q) : world :=
  {| self := slf; gen := g; trace := [] |}.

(** An object configured for three samples, and two tapes: one of draws
    inside [(0, 1)], one whose first entry (the first control draw of a run)
    is zero. *)
Definition small : ExperimentTerminator :=
  {| mc_samples := 3; alpha := Fin (5 # 100) |}.

Definition sample_tape : list Q :=
  [1 # 4; 1 # 3; 1 # 5; 1 # 2; 2 # 5; 3 # 5;
   1 # 2; 1 # 2; 1 # 2; 1 # 3; 1 # 3; 1 # 3;
   1 # 10; 2 # 10; 3 # 10; 6 # 10; 7 # 10; 9 # 10;
   1 # 10; 2 # 10; 3 # 10; 2 # 10; 1 # 10; 1 # 9;
   1 # 2; 1 # 2; 1 # 3; 1 # 7; 1 # 8; 1 # 9].

Definition zero_tape : list Q := 0 :: sample_tape.

Definition control_samples : list pyfloat :=
  [Fin (1 # 4); Fin (1 # 3); Fin (1 # 5)].

Definition test_samples : list pyfloat :=
  [Fin (1 # 2); Fin (2 # 5); Fin (3 # 5)].

End Tape.

(** * Properties *)

(** ** Comparisons of finite values *)

Lemma fltb_Fin (p q : Q) : fltb (Fin p) (Fin q) = true <-> p < q.
Proof.
  simpl. rewrite Qlt_alt. destruct (p ?= q); split; congruence.
Qed.

Lemma fleb_Fin (p q : Q) : fleb (Fin p) (Fin q) = true <-> p <= q.
Proof.
  simpl. rewrite Qle_alt. destruct (p ?= q); split; congruence.
Qed.

Lemma fgtb_Fin (p q : Q) : fgtb (Fin p) (Fin q) = true <-> q < p.
Proof. unfold fgtb. apply fltb_Fin. Qed.

Lemma fgeb_Fin (p q : Q) : fgeb (Fin p) (Fin q) = true <-> q <= p.
Proof. unfold fgeb. apply fleb_Fin. Qed.


(** Nothing is both below a bound and above a larger one. *)
Lemma fltb_fgtb_exclusive (x : pyfloat) (a b : Q) :
  a <= b -> fltb x (Fin a) = true -> fgtb x (Fin b) = true -> False.
Proof.
  intros Hab Hlt Hgt. destruct x as [q| | |]; try discriminate.
  apply fltb_Fin in Hlt. apply fgtb_Fin in Hgt. lra.
Qed.

(** ** The decision rule *)

Lemma displayed_inj (c d : classification) : displayed c = displayed d -> c = d.
Proof. destruct c, d; simpl; intros E; try reflexivity; discriminate E. Qed.

(** The classification that [app_conclusion] displays, read off the two
    comparisons of the rule. *)
Lemma app_conclusion_cases (r : AnalysisResult) :
  app_conclusion r =
  displayed
    (if fltb (pr_reject_null r) (Fin (1 # 100))
     then TerminateNoDifferenceExpected
     else if fgtb (pr_reject_null r) (Fin (99 # 100))
          then if fgtb (pr_b_gt_a r) (Fin (5 # 10))
               then TerminateTestSuperior
               else TerminateControlSuperior
          else ContinueNotYetTerminable).
Proof.
  unfold app_conclusion. cbv zeta.
  destruct (fltb (pr_reject_null r) (Fin (1 # 100)));
    destruct (fgtb (pr_reject_null r) (Fin (99 # 100)));
    destruct (fgtb (pr_b_gt_a r) (Fin (5 # 10))); reflexivity.
Qed.

(** C3.  Writing [p] for [probSignificanceAtEnd] and [q] for
    [probTestBeatsControl]: the rule displays "no difference" exactly when
    [p < 0.01]; it displays "test superior" exactly when [p > 0.99] and
    [q > 0.5], and "control superior" exactly when [p > 0.99] and not
    [q > 0.5]; in every other case it displays "should not be terminated",
    in particular when [p] is exactly [0.01] or exactly [0.99]. *)
Theorem app_conclusion_classification (r : AnalysisResult) :
  let p := pr_reject_null r in
  let q := pr_b_gt_a r in
  (app_conclusion r = displayed TerminateNoDifferenceExpected
     <-> fltb p (Fin (1 # 100)) = true)
  /\ (app_conclusion r = displayed TerminateTestSuperior
        <-> fgtb p (Fin (99 # 100)) = true /\ fgtb q (Fin (5 # 10)) = true)
  /\ (app_conclusion r = displayed TerminateControlSuperior
        <-> fgtb p (Fin (99 # 100)) = true /\ fgtb q (Fin (5 # 10)) = false)
  /\ (app_conclusion r = displayed ContinueNotYetTerminable
        <-> fltb p (Fin (1 # 100)) = false /\ fgtb p (Fin (99 # 100)) = false)
  /\ (feq p (Fin (1 # 100)) \/ feq p (Fin (99 # 100))
        -> app_conclusion r = displayed ContinueNotYetTerminable).
Proof.
  intros p q. rewrite app_conclusion_cases. fold p q.
  assert (Hex : fltb p (Fin (1 # 100)) = true ->
                fgtb p (Fin (99 # 100)) = true -> False).
  { apply fltb_fgtb_exclusive. lra. }
  destruct (fltb p (Fin (1 # 100))) eqn:Elo;
    destruct (fgtb p (Fin (99 # 100))) eqn:Ehi;
    try (exfalso; apply Hex; reflexivity);
    destruct (fgtb q (Fin (5 # 10))) eqn:Eq;
    repeat split; intros;
    repeat match goal with
           | E : displayed _ = displayed _ |- _ =>
               apply displayed_inj in E; try discriminate E; clear E
           | E : _ /\ _ |- _ => destruct E
           end;
    try reflexivity; try discriminate;
    match goal with
    | E : feq p _ \/ feq p _ |- _ =>
        destruct p as [p'| | |]; simpl in E;
        try (destruct E; contradiction);
        try (apply fltb_Fin in Elo); try (apply fgtb_Fin in Ehi);
        exfalso; destruct E as [E|E]; lra
    end.
Qed.

(** ** The samplers *)

Section EngineProperties.

Context {G : Type} `{NumpyRandom G}.

Local Abbreviation world := (@world G).
Local Abbreviation M := (@M G).

Lemma bind_Ok_inv {A B} (c : M A) (k : A -> M B) (w w' : world) (b : B) :
  bind c k w = (Ok b, w') ->
  exists a w1, c w = (Ok a, w1) /\ k a w1 = (Ok b, w').
Proof.
  unfold bind. destruct (c w) as [[a|e] w1]; intros E.
  - exists a, w1. split; [reflexivity | exact E].
  - discriminate E.
Qed.

Lemma bind_Ok {A B} (c : M A) (k : A -> M B) (w w1 : world) (a : A) :
  c w = (Ok a, w1) -> bind c k w = k a w1.
Proof. unfold bind. intros ->. reflexivity. Qed.

Lemma bind_Raise {A B} (c : M A) (k : A -> M B) (w w1 : world) (e : exn) :
  c w = (Raise e, w1) -> bind c k w = (Raise e, w1).
Proof. unfold bind. intros ->. reflexivity. Qed.

Lemma beta_draws_length (a b : Z) (n : nat) (g : G) :
  length (fst (beta_draws a b n g)) = n.
Proof.
  revert g. induction n as [|n IH]; intros g; simpl; [reflexivity|].
  destruct (beta_draw a b g) as [x g1]. specialize (IH g1).
  destruct (beta_draws a b n g1) as [xs g2]. simpl in *. now rewrite IH.
Qed.

Lemma beta_draws_range (a b : Z) (n : nat) (g : G) :
  (0 < a)%Z -> (0 < b)%Z ->
  Forall (fun x => 0 <= x <= 1) (fst (beta_draws a b n g)).
Proof.
  intros Ha Hb. revert g. induction n as [|n IH]; intros g; simpl.
  - constructor.
  - pose proof (beta_draw_range a b g Ha Hb) as Hx.
    destruct (beta_draw a b g) as [x g1]. specialize (IH g1).
    destruct (beta_draws a b n g1) as [xs g2]. simpl in *.
    constructor; assumption.
Qed.

Lemma binomial_draws_length (n : Z) (ps : list Q) (g : G) :
  length (fst (binomial_draws n ps g)) = length ps.
Proof.
  revert g. induction ps as [|p ps IH]; intros g; simpl; [reflexivity|].
  destruct (binomial_draw n p g) as [k g1]. specialize (IH g1).
  destruct (binomial_draws n ps g1) as [ks g2]. simpl in *. now rewrite IH.
Qed.

Lemma binomial_draws_range (n : Z) (ps : list Q) (g : G) :
  (0 <= n)%Z -> Forall (fun p => 0 <= p <= 1) ps ->
  Forall (fun k => (0 <= k <= n)%Z) (fst (binomial_draws n ps g)).
Proof.
  intros Hn Hps. revert g. induction Hps as [|p ps Hp Hps IH]; intros g; simpl.
  - constructor.
  - pose proof (binomial_draw_range n p g Hn Hp) as Hk.
    destruct (binomial_draw n p g) as [k g1]. specialize (IH g1).
    destruct (binomial_draws n ps g1) as [ks g2]. simpl in *.
    constructor; assumption.
Qed.

(** What a returning call of [np.random.beta] leaves behind. *)
Definition beta_post (a b : Z) (size : nat) (w : world)
  (out : list pyfloat) (w' : world) : Prop :=
  self w' = self w
  /\ trace w' = trace w ++ [BetaCall a b size out]
  /\ length out = size
  /\ Forall in_unit_interval out.

Lemma np_random_beta_Raise (a b : Z) (size : nat) (w : world) :
  (a <= 0 \/ b <= 0)%Z ->
  np_random_beta a b size w = (Raise ValueError, w).
Proof.
  intros Hab. unfold np_random_beta.
  replace ((a <=? 0) || (b <=? 0))%Z with true; [reflexivity|].
  symmetry. apply orb_true_iff. rewrite !Z.leb_le. exact Hab.
Qed.

Lemma np_random_beta_Ok (a b : Z) (size : nat) (w : world) :
  (0 < a)%Z -> (0 < b)%Z ->
  exists out w',
    np_random_beta a b size w = (Ok out, w') /\ beta_post a b size w out w'.
Proof.
  intros Ha Hb. unfold np_random_beta.
  replace ((a <=? 0) || (b <=? 0))%Z with false
    by (symmetry; apply orb_false_iff; rewrite !Z.leb_gt; split; assumption).
  pose proof (beta_draws_length a b size (gen w)) as Hlen.
  pose proof (beta_draws_range a b size (gen w) Ha Hb) as Hrng.
  destruct (beta_draws a b size (gen w)) as [xs g']. simpl in *.
  eexists. eexists. split; [reflexivity|].
  unfold beta_post; simpl. repeat split.
  - now rewrite length_map.
  - apply Forall_map. exact Hrng.
Qed.

Lemma np_random_beta_Ok_inv (a b : Z) (size : nat) (w w' : world)
  (out : list pyfloat) :
  np_random_beta a b size w = (Ok out, w') ->
  (0 < a)%Z /\ (0 < b)%Z /\ beta_post a b size w out w'.
Proof.
  intros E.
  destruct (Z_lt_le_dec 0 a) as [Ha|Ha];
    [destruct (Z_lt_le_dec 0 b) as [Hb|Hb]|].
  - destruct (np_random_beta_Ok a b size w Ha Hb) as (out1 & w1 & E1 & P1).
    rewrite E1 in E. injection E as <- <-. auto.
  - rewrite np_random_beta_Raise in E by auto. discriminate E.
  - rewrite np_random_beta_Raise in E by auto. discriminate E.
Qed.

Lemma all_some_valid_probability (p : list pyfloat) (ps : list Q) :
  all_some (map valid_probability p) = Some ps <->
  p = map Fin ps /\ Forall (fun r => 0 <= r <= 1) ps.
Proof.
  revert ps. induction p as [|x p IH]; intros ps; simpl.
  - split.
    + intros E. injection E as <-. split; [reflexivity | constructor].
    + intros [E _]. destruct ps; [reflexivity | discriminate E].
  - split.
    + intros E. destruct x as [r| | |]; simpl in E; try discriminate E.
      destruct (Qle_bool 0 r && Qle_bool r 1) eqn:Er; [|discriminate E].
      destruct (all_some (map valid_probability p)) as [ps'|] eqn:Ep;
        [|discriminate E].
      injection E as <-. destruct (proj1 (IH ps') eq_refl) as [-> Hps].
      split; [reflexivity|]. constructor; [|exact Hps].
      apply andb_true_iff in Er. rewrite !Qle_bool_iff in Er. exact Er.
    + intros [E Hps]. destruct ps as [|r ps']; [discriminate E|].
      injection E as -> ->. inversion Hps as [|? ? Hr Hps']; subst.
      simpl. replace (Qle_bool 0 r && Qle_bool r 1) with true
        by (symmetry; apply andb_true_iff; rewrite !Qle_bool_iff; exact Hr).
      rewrite (proj2 (IH ps') (conj eq_refl Hps')). reflexivity.
Qed.

Lemma in_unit_interval_Fin (xs : list pyfloat) :
  Forall in_unit_interval xs <->
  exists ps, xs = map Fin ps /\ Forall (fun r => 0 <= r <= 1) ps.
Proof.
  split.
  - induction 1 as [|x xs Hx Hxs (ps & -> & Hps)].
    + exists []. split; [reflexivity | constructor].
    + destruct x as [r| | |]; simpl in Hx; try contradiction.
      exists (r :: ps). split; [reflexivity | constructor; assumption].
  - intros (ps & -> & Hps). apply Forall_map.
    eapply Forall_impl; [|exact Hps]. simpl. auto.
Qed.

(** What a returning call of [np.random.binomial] leaves behind. *)
Definition binomial_post (n : Z) (p : list pyfloat) (size : nat) (w : world)
  (out : list Z) (w' : world) : Prop :=
  self w' = self w
  /\ trace w' = trace w ++ [BinomialCall n p size out]
  /\ length out = size
  /\ Forall (fun k => (0 <= k <= n)%Z) out.

Lemma np_random_binomial_Ok (n : Z) (p : list pyfloat) (size : nat) (w : world) :
  (0 <= n)%Z -> Forall in_unit_interval p -> length p = size ->
  exists out w',
    np_random_binomial n p size w = (Ok out, w')
    /\ binomial_post n p size w out w'.
Proof.
  intros Hn Hp Hlen. apply in_unit_interval_Fin in Hp as (ps & Ep & Hps).
  unfold np_random_binomial.
  rewrite (proj2 (all_some_valid_probability p ps) (conj Ep Hps)).
  replace (n <? 0)%Z with false by (symmetry; apply Z.ltb_ge; exact Hn).
  unfold broadcast_to.
  assert (Hl : length ps = size) by (subst p; now rewrite length_map in Hlen).
  rewrite (proj2 (Nat.eqb_eq _ _) Hl).
  pose proof (binomial_draws_length n ps (gen w)) as Hkl.
  pose proof (binomial_draws_range n ps (gen w) Hn Hps) as Hkr.
  destruct (binomial_draws n ps (gen w)) as [ks g']. simpl in *.
  eexists. eexists. split; [reflexivity|].
  unfold binomial_post; simpl. repeat split; [congruence | exact Hkr].
Qed.

Lemma lift_result_inv {A} (r : result A) (w w' : world) (x : result A) :
  lift_result r w = (x, w') -> r = x /\ w' = w.
Proof. unfold lift_result. intros E. injection E as <- <-. auto. Qed.

Lemma ret_inv {A} (a : A) (w w' : world) (x : result A) :
  ret a w = (x, w') -> x = Ok a /\ w' = w.
Proof. unfold ret. intros E. injection E as <- <-. auto. Qed.

Lemma get_self_inv (w w' : world) (x : result ExperimentTerminator) :
  get_self w = (x, w') -> x = Ok (self w) /\ w' = w.
Proof. unfold get_self. intros E. injection E as <- <-. auto. Qed.

(** Peel the binds of a run that returned, one step at a time. *)
Tactic Notation "peel" hyp(E) "as" ident(a) ident(w1) ident(E1) :=
  apply bind_Ok_inv in E; destruct E as (a & w1 & E1 & E).

Ltac peel_pure E :=
  match type of E with
  | lift_result _ _ = _ =>
      apply lift_result_inv in E; destruct E as [E ?]; subst
  | ret _ _ = _ =>
      apply ret_inv in E; destruct E as [E ?]; injection E as E; subst
  | get_self _ = _ =>
      apply get_self_inv in E; destruct E as [E ?]; injection E as E; subst
  end.

(** ** [get_posterior_samples] *)

(** A returning call drew the control samples and then the test samples,
    with the shape parameters the source passes. *)
Lemma get_posterior_samples_Ok_inv
  (completed_trials_a completed_trials_b successes_a successes_b : Z)
  (w w' : world) (xa xb : list pyfloat) :
  get_posterior_samples completed_trials_a completed_trials_b
                        successes_a successes_b w = (Ok (xa, xb), w') ->
  exists w1,
    beta_post successes_a (completed_trials_a - successes_a)
              (mc_samples (self w)) w xa w1
    /\ beta_post successes_b (completed_trials_b - successes_b)
                 (mc_samples (self w)) w1 xb w'
    /\ (0 < successes_a < completed_trials_a)%Z
    /\ (0 < successes_b < completed_trials_b)%Z.
Proof.
  unfold get_posterior_samples. intros E.
  peel E as slf1 w0 E0. peel_pure E0.
  peel E as xa' w1 E1. apply np_random_beta_Ok_inv in E1 as (Ha1 & Ha2 & Pa).
  peel E as slf2 w2 E2. peel_pure E2.
  peel E as xb' w3 E3. apply np_random_beta_Ok_inv in E3 as (Hb1 & Hb2 & Pb).
  peel_pure E.
  exists w1. assert (Hs : self w1 = self w) by apply Pa.
  rewrite Hs in Pb. split; [exact Pa | split; [exact Pb | split; lia]].
Qed.

Lemma get_posterior_samples_Ok
  (completed_trials_a completed_trials_b successes_a successes_b : Z)
  (w : world) :
  (0 < successes_a < completed_trials_a)%Z ->
  (0 < successes_b < completed_trials_b)%Z ->
  exists xa xb w',
    get_posterior_samples completed_trials_a completed_trials_b
                          successes_a successes_b w = (Ok (xa, xb), w').
Proof.
  intros Ha Hb. unfold get_posterior_samples.
  destruct (np_random_beta_Ok successes_a (completed_trials_a - successes_a)
              (mc_samples (self w)) w) as (xa & w1 & E1 & P1); [lia | lia |].
  destruct (np_random_beta_Ok successes_b (completed_trials_b - successes_b)
              (mc_samples (self w1)) w1) as (xb & w2 & E2 & P2); [lia | lia |].
  exists xa, xb, w2.
  rewrite (bind_Ok get_self _ w w (self w)) by reflexivity.
  rewrite (bind_Ok _ _ w w1 xa E1).
  rewrite (bind_Ok get_self _ w1 w1 (self w1)) by reflexivity.
  rewrite (bind_Ok _ _ w1 w2 xb E2).
  reflexivity.
Qed.

(** C7.  When the observation of an arm makes a shape parameter of its Beta
    posterior non-positive (no success, or no failure: [successes = 0] or
    [successes = completedTrials]), [get_posterior_samples] raises
    [ValueError]: it returns no samples. *)
Theorem get_posterior_samples_degenerate
  (completed_trials_a completed_trials_b successes_a successes_b : Z)
  (w : world) :
  (successes_a <= 0 \/ completed_trials_a - successes_a <= 0
   \/ successes_b <= 0 \/ completed_trials_b - successes_b <= 0)%Z ->
  fst (get_posterior_samples completed_trials_a completed_trials_b
                             successes_a successes_b w) = Raise ValueError.
Proof.
  intros Hdeg. unfold get_posterior_samples.
  rewrite (bind_Ok get_self _ w w (self w)) by reflexivity.
  destruct (Z_lt_le_dec 0 successes_a) as [Ha1|Ha1];
    [destruct (Z_lt_le_dec 0 (completed_trials_a - successes_a)) as [Ha2|Ha2]|].
  - destruct (np_random_beta_Ok successes_a (completed_trials_a - successes_a)
                (mc_samples (self w)) w Ha1 Ha2) as (xa & w1 & E1 & P1).
    rewrite (bind_Ok _ _ w w1 xa E1).
    rewrite (bind_Ok get_self _ w1 w1 (self w1)) by reflexivity.
    erewrite bind_Raise; [reflexivity|].
    apply np_random_beta_Raise. lia.
  - erewrite bind_Raise; [reflexivity|]. apply np_random_beta_Raise. lia.
  - erewrite bind_Raise; [reflexivity|]. apply np_random_beta_Raise. lia.
Qed.

(** ** Means of indicator arrays *)

Definition count_true (bs : list bool) : nat :=
  length (filter (fun b => b) bs).

(** The fraction [k / n] as a rational. *)
Definition fraction (k n : nat) : Q :=
  inject_Z (Z.of_nat k) / inject_Z (Z.of_nat n).

Lemma count_true_le (bs : list bool) : (count_true bs <= length bs)%nat.
Proof. unfold count_true. apply filter_length_le. Qed.

Lemma fraction_range (k n : nat) :
  (k <= n)%nat -> (1 <= n)%nat -> 0 <= fraction k n <= 1.
Proof.
  intros Hk Hn. unfold fraction.
  assert (Hn' : 0 < inject_Z (Z.of_nat n)).
  { replace 0 with (inject_Z 0) by reflexivity. rewrite <- Zlt_Qlt. lia. }
  assert (Hk0 : 0 <= inject_Z (Z.of_nat k)).
  { replace 0 with (inject_Z 0) by reflexivity. rewrite <- Zle_Qle. lia. }
  assert (Hkn : inject_Z (Z.of_nat k) <= inject_Z (Z.of_nat n)).
  { rewrite <- Zle_Qle. lia. }
  split.
  - apply Qle_shift_div_l; [exact Hn' | lra].
  - apply Qle_shift_div_r; [exact Hn' | lra].
Qed.

Lemma sum_indicators (bs : list bool) (acc : Q) :
  exists s,
    fold_left fadd (map float_of_bool bs) (Fin acc) = Fin s
    /\ s == acc + inject_Z (Z.of_nat (count_true bs)).
Proof.
  revert acc. induction bs as [|b bs IH]; intros acc; simpl.
  - exists acc. split; [reflexivity|]. unfold count_true; simpl.
    change (inject_Z 0) with 0. lra.
  - destruct (IH (acc + (if b then 1 else 0))) as (s & Es & Hs).
    exists s. split.
    + destruct b; exact Es.
    + rewrite Hs. unfold count_true. destruct b; simpl filter; simpl length.
      * rewrite Nat2Z.inj_succ, <- Z.add_1_l, inject_Z_plus.
        change (inject_Z 1) with 1. lra.
      * lra.
Qed.

(** The mean of an indicator array is the fraction of its true entries, a
    value of [[0, 1]]. *)
Lemma np_mean_indicators (bs : list bool) :
  (1 <= length bs)%nat ->
  exists m,
    np_mean (map float_of_bool bs) = Fin m
    /\ m == fraction (count_true bs) (length bs)
    /\ 0 <= m <= 1.
Proof.
  intros Hn. unfold np_mean, np_sum.
  destruct (sum_indicators bs 0) as (s & -> & Hs).
  rewrite length_map. simpl.
  assert (Hpos : 0 < inject_Z (Z.of_nat (length bs))).
  { replace 0 with (inject_Z 0) by reflexivity. rewrite <- Zlt_Qlt. lia. }
  destruct (Qeq_bool (inject_Z (Z.of_nat (length bs))) 0) eqn:E0.
  - apply Qeq_bool_iff in E0. lra.
  - eexists. split; [reflexivity|].
    assert (Hm : s / inject_Z (Z.of_nat (length bs))
                 == fraction (count_true bs) (length bs)).
    { unfold fraction. rewrite Hs. field. lra. }
    split; [exact Hm|]. rewrite Hm.
    apply fraction_range; [apply count_true_le | exact Hn].
Qed.

(** ** One scenario of the predictive simulation *)

(** The interval that line 88 computes from the inner sample sets [da]
    (control) and [db] (test) when [alpha] is the finite value [a]. *)
Definition scenario_interval (a : Q) (da db : list pyfloat)
  : pyfloat * pyfloat :=
  let post_samples_b_minus_a := zip_with fsub db da in
  (quantile_sorted (np_sort post_samples_b_minus_a) (a / 2),
   quantile_sorted (np_sort post_samples_b_minus_a) (1 - a / 2)).

(** The outcome of the test of line 89 on these sample sets. *)
Definition scenario_marked (a : Q) (d : list pyfloat * list pyfloat) : bool :=
  let (lo, hi) := scenario_interval a (fst d) (snd d) in
  interval_excludes_zero lo hi.

Lemma zip_with_length {A B C} (f : A -> B -> C) (xs : list A) (ys : list B) :
  length xs = length ys -> length (zip_with f xs ys) = length xs.
Proof.
  revert ys. induction xs as [|x xs IH]; intros [|y ys] E; simpl in *;
    try reflexivity; try discriminate E.
  f_equal. apply IH. now injection E.
Qed.

Lemma zip_with_fsub_finite (xs ys : list pyfloat) :
  Forall in_unit_interval xs -> Forall in_unit_interval ys ->
  Forall (fun x => is_finite x = true) (zip_with fsub xs ys).
Proof.
  intros Hxs. revert ys. induction Hxs as [|x xs Hx Hxs IH]; intros ys Hys.
  - constructor.
  - destruct Hys as [|y ys Hy Hys]; simpl; constructor.
    + destruct x, y; simpl in *; try contradiction; reflexivity.
    + apply IH. exact Hys.
Qed.

Lemma finite_no_nan (xs : list pyfloat) :
  Forall (fun x => is_finite x = true) xs -> existsb is_nan xs = false.
Proof.
  induction 1 as [|x xs Hx Hxs IH]; simpl; [reflexivity|].
  rewrite IH. destruct x; simpl in *; try discriminate; reflexivity.
Qed.

Lemma np_sub_same_length (xs ys : list pyfloat) :
  length xs = length ys -> np_sub xs ys = Ok (zip_with fsub xs ys).
Proof.
  intros E. unfold np_sub, broadcast2.
  now rewrite (proj2 (Nat.eqb_eq _ _) E).
Qed.

(** [np.quantile] at [alpha / 2] and [1 - alpha / 2] on finite data. *)
Lemma np_quantile_interval (a : Q) (diffs : list pyfloat) :
  0 <= a <= 2 -> (1 <= length diffs)%nat ->
  Forall (fun x => is_finite x = true) diffs ->
  np_quantile diffs
    [fdiv (Fin a) (Fin 2); fsub (Fin 1) (fdiv (Fin a) (Fin 2))]
  = Ok [quantile_sorted (np_sort diffs) (a / 2);
        quantile_sorted (np_sort diffs) (1 - a / 2)].
Proof.
  intros Ha Hlen Hfin. unfold np_quantile.
  change (fdiv (Fin a) (Fin 2)) with (Fin (a / 2)).
  change (fsub (Fin 1) (Fin (a / 2))) with (Fin (1 - a / 2)).
  simpl map.
  replace (Qle_bool 0 (a / 2) && Qle_bool (a / 2) 1) with true.
  2:{ symmetry. apply andb_true_iff. rewrite !Qle_bool_iff.
      split; [apply Qle_shift_div_l | apply Qle_shift_div_r]; lra. }
  replace (Qle_bool 0 (1 - a / 2) && Qle_bool (1 - a / 2) 1) with true.
  2:{ symmetry. apply andb_true_iff. rewrite !Qle_bool_iff.
      assert (0 <= a / 2) by (apply Qle_shift_div_l; lra).
      assert (a / 2 <= 1) by (apply Qle_shift_div_r; lra).
      split; lra. }
  simpl all_some.
  destruct diffs as [|d diffs]; [simpl in Hlen; lia|].
  rewrite (finite_no_nan _ Hfin). reflexivity.
Qed.

(** The inner sample sets of one scenario: [size] draws each, all in
    [[0, 1]]. *)
Definition inner_samples_ok (size : nat) (d : list pyfloat * list pyfloat)
  : Prop :=
  length (fst d) = size /\ length (snd d) = size
  /\ Forall in_unit_interval (fst d) /\ Forall in_unit_interval (snd d).

(** The two sampler calls of each scenario, for the final success counts
    [finals_a] and [finals_b] and the inner sample sets drawn. *)
Fixpoint scenario_calls (size : nat) (planned_trials_a planned_trials_b : Z)
  (finals_a finals_b : list Z) (inner : list (list pyfloat * list pyfloat))
  : list call :=
  match finals_a, finals_b, inner with
  | f_a :: finals_a', f_b :: finals_b', d :: inner' =>
      BetaCall (f_a + 1) (planned_trials_a - f_a + 1) size (fst d)
      :: BetaCall (f_b + 1) (planned_trials_b - f_b + 1) size (snd d)
      :: scenario_calls size planned_trials_a planned_trials_b
                        finals_a' finals_b' inner'
  | _, _, _ => []
  end.

Lemma getitem_app {A} (pre xs : list A) (x : A) (i : nat) :
  length pre = i -> getitem (pre ++ x :: xs) i = Ok x.
Proof.
  intros <-. unfold getitem. rewrite nth_error_app2 by lia.
  now rewrite Nat.sub_diag.
Qed.

Lemma list_set_app {A} (pre xs : list A) (x v : A) :
  list_set (pre ++ x :: xs) (length pre) v = pre ++ v :: xs.
Proof. induction pre as [|y pre IH]; simpl; [reflexivity | now rewrite IH]. Qed.

Lemma setitem_app {A} (pre xs : list A) (x v : A) :
  setitem (pre ++ x :: xs) (length pre) v = Ok (pre ++ v :: xs).
Proof.
  unfold setitem. rewrite list_set_app.
  replace (length pre <? length (pre ++ x :: xs))%nat with true; [reflexivity|].
  symmetry. apply Nat.ltb_lt. rewrite length_app. simpl. lia.
Qed.

(** One iteration of the loop, at the index [length done]. *)
Lemma rejection_step_spec
  (planned_trials_a planned_trials_b : Z)
  (pre_a pre_b : list Z) (f_a f_b : Z) (rest_a rest_b : list Z)
  (done rest : list pyfloat) (a : Q) (w : world) :
  length pre_a = length done -> length pre_b = length done ->
  (0 <= f_a <= planned_trials_a)%Z -> (0 <= f_b <= planned_trials_b)%Z ->
  alpha (self w) = Fin a -> 0 <= a <= 2 ->
  (1 <= mc_samples (self w))%nat ->
  exists d w1 w',
    rejection_step planned_trials_a planned_trials_b
                   (pre_a ++ f_a :: rest_a) (pre_b ++ f_b :: rest_b)
                   (length done) (done ++ Fin 0 :: rest) w
    = (Ok (done ++ float_of_bool (scenario_marked a d) :: rest), w')
    /\ beta_post (f_a + 1) (planned_trials_a - f_a + 1)
                 (mc_samples (self w)) w (fst d) w1
    /\ beta_post (f_b + 1) (planned_trials_b - f_b + 1)
                 (mc_samples (self w)) w1 (snd d) w'.
Proof.
  intros La Lb Hfa Hfb Halpha Ha HN. unfold rejection_step.
  rewrite (getitem_app pre_a rest_a f_a (length done) La).
  rewrite (bind_Ok (lift_result (Ok f_a)) _ w w f_a) by reflexivity.
  rewrite (bind_Ok get_self _ w w (self w)) by reflexivity.
  destruct (np_random_beta_Ok (f_a + 1) (planned_trials_a - f_a + 1)
              (mc_samples (self w)) w) as (da & w1 & E1 & P1); [lia | lia |].
  rewrite (bind_Ok _ _ w w1 da E1).
  rewrite (getitem_app pre_b rest_b f_b (length done) Lb).
  rewrite (bind_Ok (lift_result (Ok f_b)) _ w1 w1 f_b) by reflexivity.
  rewrite (bind_Ok get_self _ w1 w1 (self w1)) by reflexivity.
  destruct (np_random_beta_Ok (f_b + 1) (planned_trials_b - f_b + 1)
              (mc_samples (self w1)) w1) as (db & w2 & E2 & P2); [lia | lia |].
  rewrite (bind_Ok _ _ w1 w2 db E2).
  destruct P1 as (S1 & T1 & L1 & R1). destruct P2 as (S2 & T2 & L2 & R2).
  rewrite S1 in *.
  rewrite np_sub_same_length by congruence.
  rewrite (bind_Ok (lift_result (Ok (zip_with fsub db da))) _ w2 w2
             (zip_with fsub db da)) by reflexivity.
  rewrite (bind_Ok get_self _ w2 w2 (self w2)) by reflexivity.
  rewrite S2, Halpha.
  rewrite np_quantile_interval;
    [| exact Ha
     | rewrite zip_with_length by congruence; lia
     | apply zip_with_fsub_finite; assumption].
  rewrite (bind_Ok (lift_result (Ok _)) _ w2 w2 _) by reflexivity.
  unfold getitem. cbn [nth_error].
  rewrite (bind_Ok (lift_result (Ok _)) _ w2 w2 _) by reflexivity.
  rewrite (bind_Ok (lift_result (Ok _)) _ w2 w2 _) by reflexivity.
  exists (da, db), w1, w2.
  split; [| split; unfold beta_post; simpl; rewrite ?S1; auto].
  unfold scenario_marked, scenario_interval. simpl fst. simpl snd.
  destruct (interval_excludes_zero _ _).
  - unfold lift_result. now rewrite setitem_app.
  - reflexivity.
Qed.

Lemma app_cons_assoc {A} (pre : list A) (x : A) (xs : list A) :
  pre ++ x :: xs = (pre ++ [x]) ++ xs.
Proof. now rewrite <- app_assoc. Qed.

(** The whole loop: every index marks its entry of [rejection] by the test on
    its own inner sample sets, and the trace grows by two sampler calls per
    index. *)
Lemma rejection_loop_spec
  (planned_trials_a planned_trials_b : Z) (a : Q)
  (finals_a : list Z) :
  forall (finals_b pre_a pre_b : list Z) (done : list pyfloat) (w : world),
  length finals_a = length finals_b ->
  length pre_a = length done -> length pre_b = length done ->
  Forall (fun f => (0 <= f <= planned_trials_a)%Z) finals_a ->
  Forall (fun f => (0 <= f <= planned_trials_b)%Z) finals_b ->
  alpha (self w) = Fin a -> 0 <= a <= 2 ->
  (1 <= mc_samples (self w))%nat ->
  exists inner w',
    rejection_loop planned_trials_a planned_trials_b
                   (pre_a ++ finals_a) (pre_b ++ finals_b)
                   (seq (length done) (length finals_a))
                   (done ++ repeat (Fin 0) (length finals_a)) w
    = (Ok (done ++ map (fun d => float_of_bool (scenario_marked a d)) inner),
       w')
    /\ self w' = self w
    /\ length inner = length finals_a
    /\ Forall (inner_samples_ok (mc_samples (self w))) inner
    /\ trace w' =
       trace w ++ scenario_calls (mc_samples (self w))
                                 planned_trials_a planned_trials_b
                                 finals_a finals_b inner.
Proof.
  induction finals_a as [|f_a finals_a IH];
    intros finals_b pre_a pre_b done w Hlen La Lb Hfa Hfb Halpha Ha HN.
  - exists [], w. simpl. rewrite !app_nil_r.
    repeat split; try reflexivity. constructor.
  - destruct finals_b as [|f_b finals_b]; [discriminate Hlen|].
    injection Hlen as Hlen.
    inversion Hfa as [|? ? Hfa1 Hfa']; subst.
    inversion Hfb as [|? ? Hfb1 Hfb']; subst.
    simpl length. simpl seq. simpl repeat. simpl rejection_loop.
    destruct (rejection_step_spec planned_trials_a planned_trials_b
                pre_a pre_b f_a f_b finals_a finals_b done
                (repeat (Fin 0) (length finals_a)) a w
                La Lb Hfa1 Hfb1 Halpha Ha HN)
      as (d & w1 & w2 & Estep & P1 & P2).
    rewrite (bind_Ok _ _ w w2 _ Estep).
    destruct P1 as (S1 & T1 & L1 & R1). destruct P2 as (S2 & T2 & L2 & R2).
    assert (Sw2 : self w2 = self w) by congruence.
    destruct (IH finals_b (pre_a ++ [f_a]) (pre_b ++ [f_b])
                (done ++ [float_of_bool (scenario_marked a d)]) w2)
      as (inner & w' & Eloop & S' & Li & Fi & T');
      try assumption;
      try (rewrite !length_app; simpl; lia);
      try (rewrite Sw2; assumption).
    rewrite length_app in Eloop. simpl length in Eloop.
    rewrite Nat.add_1_r in Eloop.
    rewrite <- !app_cons_assoc in Eloop.
    exists (d :: inner), w'. split; [|split; [|split; [|split]]].
    + rewrite Eloop. reflexivity.
    + congruence.
    + simpl. now rewrite Li.
    + constructor.
      * unfold inner_samples_ok. auto.
      * rewrite <- Sw2. exact Fi.
    + rewrite T', T2, T1, Sw2. simpl scenario_calls.
      rewrite <- !app_assoc. reflexivity.
Qed.

(** ** [get_prob_reject_null] *)

(** A valid observation of one arm: [0 <= successes <= completed <= planned]
    and at least one planned trial. *)
Definition valid_observation (planned_trials completed_trials successes : Z)
  : Prop :=
  (1 <= planned_trials /\ 0 <= completed_trials <= planned_trials
   /\ 0 <= successes <= completed_trials)%Z.

Definition valid_observationb (planned_trials completed_trials successes : Z)
  : bool :=
  ((1 <=? planned_trials) && (0 <=? completed_trials)
   && (completed_trials <=? planned_trials)
   && (0 <=? successes) && (successes <=? completed_trials))%Z.

(** A posterior sample set of the size the object is configured for. *)
Definition sample_set (slf : ExperimentTerminator) (xs : list pyfloat) : Prop :=
  length xs = mc_samples slf /\ Forall in_unit_interval xs.

(** On valid observations and sample sets the method returns; the lemma
    names the draws behind the returned value: the additional successes
    [extra_a], [extra_b] of the two Binomial calls and the inner sample sets
    of every scenario. *)
Lemma get_prob_reject_null_spec
  (planned_trials_a planned_trials_b
   completed_trials_a completed_trials_b
   successes_a successes_b : Z)
  (posterior_samples_a posterior_samples_b : list pyfloat)
  (a : Q) (w : world) :
  valid_observation planned_trials_a completed_trials_a successes_a ->
  valid_observation planned_trials_b completed_trials_b successes_b ->
  sample_set (self w) posterior_samples_a ->
  sample_set (self w) posterior_samples_b ->
  alpha (self w) = Fin a -> 0 <= a <= 2 ->
  (1 <= mc_samples (self w))%nat ->
  exists extra_a extra_b inner w',
    get_prob_reject_null planned_trials_a planned_trials_b
                         completed_trials_a completed_trials_b
                         successes_a successes_b
                         posterior_samples_a posterior_samples_b w
    = (Ok (np_mean (map (fun d => float_of_bool (scenario_marked a d)) inner)),
       w')
    /\ self w' = self w
    /\ trace w' =
       trace w
       ++ BinomialCall (planned_trials_a - completed_trials_a)
                       posterior_samples_a (mc_samples (self w)) extra_a
       :: BinomialCall (planned_trials_b - completed_trials_b)
                       posterior_samples_b (mc_samples (self w)) extra_b
       :: scenario_calls (mc_samples (self w))
                         planned_trials_a planned_trials_b
                         (map (fun k => (k + successes_a)%Z) extra_a)
                         (map (fun k => (k + successes_b)%Z) extra_b)
                         inner
    /\ length extra_a = mc_samples (self w)
    /\ length extra_b = mc_samples (self w)
    /\ Forall (fun k => (0 <= k <= planned_trials_a - completed_trials_a)%Z)
              extra_a
    /\ Forall (fun k => (0 <= k <= planned_trials_b - completed_trials_b)%Z)
              extra_b
    /\ length inner = mc_samples (self w)
    /\ Forall (inner_samples_ok (mc_samples (self w))) inner.
Proof.
  intros Va Vb [Lxa Rxa] [Lxb Rxb] Halpha Ha HN.
  unfold valid_observation in Va, Vb. unfold get_prob_reject_null.
  rewrite (bind_Ok get_self _ w w (self w)) by reflexivity.
  destruct (np_random_binomial_Ok (planned_trials_a - completed_trials_a)
              posterior_samples_a (mc_samples (self w)) w)
    as (ka & w1 & E1 & S1 & T1 & L1 & R1); [lia | assumption | assumption |].
  rewrite (bind_Ok _ _ w w1 ka E1).
  rewrite (bind_Ok get_self _ w1 w1 (self w1)) by reflexivity.
  rewrite S1.
  destruct (np_random_binomial_Ok (planned_trials_b - completed_trials_b)
              posterior_samples_b (mc_samples (self w)) w1)
    as (kb & w2 & E2 & S2 & T2 & L2 & R2); [lia | assumption | assumption |].
  rewrite (bind_Ok _ _ w1 w2 kb E2).
  rewrite (bind_Ok get_self _ w2 w2 (self w2)) by reflexivity.
  rewrite (bind_Ok get_self _ w2 w2 (self w2)) by reflexivity.
  assert (Sw2 : self w2 = self w) by congruence. rewrite Sw2.
  destruct (rejection_loop_spec planned_trials_a planned_trials_b a
              (map (fun k => (k + successes_a)%Z) ka)
              (map (fun k => (k + successes_b)%Z) kb) [] [] [] w2)
    as (inner & w' & Eloop & S' & Li & Fi & T');
    try reflexivity.
  { rewrite !length_map. congruence. }
  { apply Forall_map. eapply Forall_impl; [|exact R1]. simpl. intros; lia. }
  { apply Forall_map. eapply Forall_impl; [|exact R2]. simpl. intros; lia. }
  { congruence. }
  { exact Ha. }
  { congruence. }
  simpl app in Eloop. simpl length in Eloop at 1.
  rewrite length_map, L1 in Eloop. unfold np_zeros.
  rewrite (bind_Ok _ _ w2 w' _ Eloop).
  exists ka, kb, inner, w'.
  rewrite length_map in Li. rewrite Sw2 in Fi, T'.
  repeat split; try assumption; try congruence.
  rewrite T', T2, T1. rewrite <- !app_assoc. reflexivity.
Qed.

(** A usable [alpha]: finite, with [alpha / 2] and [1 - alpha / 2] in
    [[0, 1]]. *)
Definition usable_alpha (x : pyfloat) : Prop :=
  exists a, x = Fin a /\ 0 <= a <= 2.

Lemma usable_alpha_dec (x : pyfloat) : usable_alpha x \/ ~ usable_alpha x.
Proof.
  destruct x as [a| | |];
    try (right; intros (a' & E & _); discriminate E).
  destruct (Qlt_le_dec a 0) as [H0|H0];
    [| destruct (Qlt_le_dec 2 a) as [H2|H2]].
  - right. intros (a' & E & Ha'). injection E as <-. lra.
  - right. intros (a' & E & Ha'). injection E as <-. lra.
  - left. exists a. split; [reflexivity | lra].
Qed.

(** With any other [alpha], [np.quantile] rejects the requested quantiles. *)
Lemma np_quantile_unusable_alpha (x : pyfloat) (diffs : list pyfloat) :
  ~ usable_alpha x ->
  np_quantile diffs [fdiv x (Fin 2); fsub (Fin 1) (fdiv x (Fin 2))]
  = Raise ValueError.
Proof.
  intros Hx. unfold np_quantile.
  destruct x as [a| | |]; try reflexivity.
  change (fdiv (Fin a) (Fin 2)) with (Fin (a / 2)).
  simpl map.
  destruct (Qle_bool 0 (a / 2) && Qle_bool (a / 2) 1) eqn:E; [|reflexivity].
  exfalso. apply Hx. exists a. split; [reflexivity|].
  apply andb_true_iff in E. rewrite !Qle_bool_iff in E.
  destruct E as [E1 E2].
  assert (a == (a / 2) * 2) by (field).
  lra.
Qed.

Lemma rejection_step_unusable_alpha
  (planned_trials_a planned_trials_b : Z)
  (pre_a pre_b : list Z) (f_a f_b : Z) (rest_a rest_b : list Z)
  (rejection : list pyfloat) (i : nat) (w : world) :
  length pre_a = i -> length pre_b = i ->
  (0 <= f_a <= planned_trials_a)%Z -> (0 <= f_b <= planned_trials_b)%Z ->
  ~ usable_alpha (alpha (self w)) ->
  fst (rejection_step planned_trials_a planned_trials_b
                      (pre_a ++ f_a :: rest_a) (pre_b ++ f_b :: rest_b)
                      i rejection w)
  = Raise ValueError.
Proof.
  intros La Lb Hfa Hfb Halpha. unfold rejection_step.
  rewrite (getitem_app pre_a rest_a f_a i La).
  rewrite (bind_Ok (lift_result (Ok f_a)) _ w w f_a) by reflexivity.
  rewrite (bind_Ok get_self _ w w (self w)) by reflexivity.
  destruct (np_random_beta_Ok (f_a + 1) (planned_trials_a - f_a + 1)
              (mc_samples (self w)) w) as (da & w1 & E1 & P1); [lia | lia |].
  rewrite (bind_Ok _ _ w w1 da E1).
  rewrite (getitem_app pre_b rest_b f_b i Lb).
  rewrite (bind_Ok (lift_result (Ok f_b)) _ w1 w1 f_b) by reflexivity.
  rewrite (bind_Ok get_self _ w1 w1 (self w1)) by reflexivity.
  destruct (np_random_beta_Ok (f_b + 1) (planned_trials_b - f_b + 1)
              (mc_samples (self w1)) w1) as (db & w2 & E2 & P2); [lia | lia |].
  rewrite (bind_Ok _ _ w1 w2 db E2).
  destruct P1 as (S1 & T1 & L1 & R1). destruct P2 as (S2 & T2 & L2 & R2).
  rewrite S1 in *.
  rewrite np_sub_same_length by congruence.
  rewrite (bind_Ok (lift_result (Ok (zip_with fsub db da))) _ w2 w2
             (zip_with fsub db da)) by reflexivity.
  rewrite (bind_Ok get_self _ w2 w2 (self w2)) by reflexivity.
  rewrite S2.
  rewrite np_quantile_unusable_alpha by exact Halpha.
  reflexivity.
Qed.

(** So does the whole method, as soon as the loop runs once. *)
Lemma get_prob_reject_null_unusable_alpha
  (planned_trials_a planned_trials_b
   completed_trials_a completed_trials_b
   successes_a successes_b : Z)
  (posterior_samples_a posterior_samples_b : list pyfloat) (w : world) :
  valid_observation planned_trials_a completed_trials_a successes_a ->
  valid_observation planned_trials_b completed_trials_b successes_b ->
  sample_set (self w) posterior_samples_a ->
  sample_set (self w) posterior_samples_b ->
  (1 <= mc_samples (self w))%nat ->
  ~ usable_alpha (alpha (self w)) ->
  fst (get_prob_reject_null planned_trials_a planned_trials_b
                            completed_trials_a completed_trials_b
                            successes_a successes_b
                            posterior_samples_a posterior_samples_b w)
  = Raise ValueError.
Proof.
  intros Va Vb [Lxa Rxa] [Lxb Rxb] HN Halpha.
  unfold valid_observation in Va, Vb. unfold get_prob_reject_null.
  rewrite (bind_Ok get_self _ w w (self w)) by reflexivity.
  destruct (np_random_binomial_Ok (planned_trials_a - completed_trials_a)
              posterior_samples_a (mc_samples (self w)) w)
    as (ka & w1 & E1 & S1 & T1 & L1 & R1); [lia | assumption | assumption |].
  rewrite (bind_Ok _ _ w w1 ka E1).
  rewrite (bind_Ok get_self _ w1 w1 (self w1)) by reflexivity.
  rewrite S1.
  destruct (np_random_binomial_Ok (planned_trials_b - completed_trials_b)
              posterior_samples_b (mc_samples (self w)) w1)
    as (kb & w2 & E2 & S2 & T2 & L2 & R2); [lia | assumption | assumption |].
  rewrite (bind_Ok _ _ w1 w2 kb E2).
  rewrite (bind_Ok get_self _ w2 w2 (self w2)) by reflexivity.
  rewrite (bind_Ok get_self _ w2 w2 (self w2)) by reflexivity.
  assert (Sw2 : self w2 = self w) by congruence. rewrite Sw2.
  destruct (mc_samples (self w)) as [|n] eqn:EN; [lia|].
  destruct ka as [|k_a ka]; [discriminate L1|].
  destruct kb as [|k_b kb]; [discriminate L2|].
  inversion R1 as [|? ? Hka _]; subst. inversion R2 as [|? ? Hkb _]; subst.
  simpl map. simpl seq. simpl rejection_loop.
  assert (Hstep :
    fst (rejection_step planned_trials_a planned_trials_b
           ([] ++ (k_a + successes_a)%Z
                  :: map (fun k => (k + successes_a)%Z) ka)
           ([] ++ (k_b + successes_b)%Z
                  :: map (fun k => (k + successes_b)%Z) kb)
           0 (np_zeros (S n)) w2) = Raise ValueError).
  { apply rejection_step_unusable_alpha;
      try reflexivity; try lia. rewrite Sw2. exact Halpha. }
  simpl app in Hstep.
  destruct (rejection_step _ _ _ _ 0 _ w2) as [[rej|e] w3] eqn:Estep;
    simpl in Hstep; [discriminate Hstep|]. injection Hstep as ->.
  erewrite bind_Raise; [reflexivity | apply bind_Raise; exact Estep].
Qed.

(** ** [analyze_experiment] *)

Lemma np_div_same_length (xs ys : list pyfloat) :
  length xs = length ys -> np_div xs ys = Ok (zip_with fdiv xs ys).
Proof.
  intros E. unfold np_div, broadcast2.
  now rewrite (proj2 (Nat.eqb_eq _ _) E).
Qed.

Lemma py_truediv_Ok_inv (a b : Z) (x : pyfloat) :
  py_truediv a b = Ok x -> b <> 0%Z /\ x = Fin (inject_Z a / inject_Z b).
Proof.
  unfold py_truediv. destruct (b =? 0)%Z eqn:E; intros E'; [discriminate E'|].
  apply Z.eqb_neq in E. injection E' as <-. auto.
Qed.

(** The lift samples of line 120 for two sample sets of equal length. *)
Definition lift_samples (control test : list pyfloat) : list pyfloat :=
  zip_with fdiv (zip_with fsub test control) control.

(** Everything a returning run of [analyze_experiment] is made of: the two
    posterior sample sets [xa], [xb], the additional successes drawn for the
    two arms, the inner sample sets of the scenarios, and how the six
    results derive from them. *)
Definition analysis_run
  (planned_trials_a planned_trials_b
   completed_trials_a completed_trials_b
   successes_a successes_b : Z)
  (w : world) (r : AnalysisResult) (w' : world)
  (a : Q) (xa xb : list pyfloat) (extra_a extra_b : list Z)
  (inner : list (list pyfloat * list pyfloat)) : Prop :=
  let size := mc_samples (self w) in
  alpha (self w) = Fin a /\ 0 <= a <= 2
  /\ (0 < successes_a < completed_trials_a)%Z
  /\ (0 < successes_b < completed_trials_b)%Z
  /\ sample_set (self w) xa /\ sample_set (self w) xb
  /\ r = {| conversion_rate_a :=
              Fin (inject_Z successes_a / inject_Z completed_trials_a);
            conversion_rate_b :=
              Fin (inject_Z successes_b / inject_Z completed_trials_b);
            expected_lift := np_mean (lift_samples xa xb);
            pr_b_gt_a := np_mean_bool (np_ge_zero (lift_samples xa xb));
            pr_reject_null :=
              np_mean (map (fun d => float_of_bool (scenario_marked a d))
                           inner);
            posterior_lift := lift_samples xa xb |}
  /\ self w' = self w
  /\ trace w' =
     trace w
     ++ BetaCall successes_a (completed_trials_a - successes_a) size xa
     :: BetaCall successes_b (completed_trials_b - successes_b) size xb
     :: BinomialCall (planned_trials_a - completed_trials_a) xa size extra_a
     :: BinomialCall (planned_trials_b - completed_trials_b) xb size extra_b
     :: scenario_calls size planned_trials_a planned_trials_b
                       (map (fun k => (k + successes_a)%Z) extra_a)
                       (map (fun k => (k + successes_b)%Z) extra_b)
                       inner
  /\ length extra_a = size /\ length extra_b = size
  /\ Forall (fun k => (0 <= k <= planned_trials_a - completed_trials_a)%Z)
            extra_a
  /\ Forall (fun k => (0 <= k <= planned_trials_b - completed_trials_b)%Z)
            extra_b
  /\ length inner = size
  /\ Forall (inner_samples_ok size) inner.

Lemma analyze_experiment_Ok_inv
  (planned_trials_a planned_trials_b
   completed_trials_a completed_trials_b
   successes_a successes_b : Z)
  (w w' : world) (r : AnalysisResult) :
  (completed_trials_a <= planned_trials_a)%Z ->
  (completed_trials_b <= planned_trials_b)%Z ->
  (1 <= mc_samples (self w))%nat ->
  analyze_experiment planned_trials_a planned_trials_b
                     completed_trials_a completed_trials_b
                     successes_a successes_b w = (Ok r, w') ->
  exists a xa xb extra_a extra_b inner,
    analysis_run planned_trials_a planned_trials_b
                 completed_trials_a completed_trials_b
                 successes_a successes_b w r w'
                 a xa xb extra_a extra_b inner.
Proof.
  intros Hpa Hpb HN E. unfold analyze_experiment in E.
  peel E as ps w1 Eps. destruct ps as [xa xb].
  apply get_posterior_samples_Ok_inv in Eps
    as (w0 & (Sa & Ta & La & Ra) & (Sb & Tb & Lb & Rb) & Hsa & Hsb).
  simpl fst in E. simpl snd in E.
  peel E as diff w2 Ediff. peel_pure Ediff.
  rewrite np_sub_same_length in Ediff by congruence. injection Ediff as <-.
  peel E as lift w3 Elift. peel_pure Elift.
  rewrite np_div_same_length in Elift
    by (rewrite zip_with_length; congruence).
  injection Elift as <-.
  peel E as rate_a w4 Era. peel_pure Era.
  apply py_truediv_Ok_inv in Era as [_ ->].
  peel E as rate_b w5 Erb. peel_pure Erb.
  apply py_truediv_Ok_inv in Erb as [_ ->].
  peel E as p w6 Ep. peel_pure E.
  assert (Sw1 : self w1 = self w) by congruence.
  assert (Va : valid_observation planned_trials_a completed_trials_a
                                 successes_a)
    by (unfold valid_observation; lia).
  assert (Vb : valid_observation planned_trials_b completed_trials_b
                                 successes_b)
    by (unfold valid_observation; lia).
  assert (Xa : sample_set (self w1) xa) by (rewrite Sw1; split; assumption).
  assert (Xb : sample_set (self w1) xb) by (rewrite Sw1; split; assumption).
  assert (HN1 : (1 <= mc_samples (self w1))%nat) by (rewrite Sw1; exact HN).
  destruct (usable_alpha_dec (alpha (self w1))) as [(a & Ha & Hrange)|Hbad].
  - destruct (get_prob_reject_null_spec planned_trials_a planned_trials_b
                completed_trials_a completed_trials_b successes_a successes_b
                xa xb a w1 Va Vb Xa Xb Ha Hrange HN1)
      as (extra_a & extra_b & inner & w'' & Erun & S' & T' & Lea & Leb
          & Rea & Reb & Li & Fi).
    rewrite Erun in Ep. injection Ep as <- <-.
    exists a, xa, xb, extra_a, extra_b, inner.
    rewrite Sw1 in *. unfold analysis_run.
    repeat match goal with |- _ /\ _ => split end;
      try assumption; try reflexivity; try lia; try lra; try congruence.
    rewrite T', Tb, Ta. rewrite <- !app_assoc. reflexivity.
  - pose proof (get_prob_reject_null_unusable_alpha
                  planned_trials_a planned_trials_b
                  completed_trials_a completed_trials_b
                  successes_a successes_b xa xb w1 Va Vb Xa Xb HN1 Hbad)
      as Hraise.
    rewrite Ep in Hraise. discriminate Hraise.
Qed.

Lemma analyze_experiment_Ok
  (planned_trials_a planned_trials_b
   completed_trials_a completed_trials_b
   successes_a successes_b : Z)
  (a : Q) (w : world) :
  (0 < successes_a < completed_trials_a)%Z ->
  (0 < successes_b < completed_trials_b)%Z ->
  (completed_trials_a <= planned_trials_a)%Z ->
  (completed_trials_b <= planned_trials_b)%Z ->
  alpha (self w) = Fin a -> 0 <= a <= 2 ->
  (1 <= mc_samples (self w))%nat ->
  exists r w',
    analyze_experiment planned_trials_a planned_trials_b
                       completed_trials_a completed_trials_b
                       successes_a successes_b w = (Ok r, w').
Proof.
  intros Hsa Hsb Hpa Hpb Ha Hrange HN. unfold analyze_experiment.
  destruct (get_posterior_samples_Ok completed_trials_a completed_trials_b
              successes_a successes_b w Hsa Hsb) as (xa & xb & w1 & Eps).
  rewrite (bind_Ok _ _ w w1 _ Eps).
  apply get_posterior_samples_Ok_inv in Eps
    as (w0 & (Sa & Ta & La & Ra) & (Sb & Tb & Lb & Rb) & _ & _).
  simpl fst. simpl snd.
  rewrite np_sub_same_length by congruence.
  rewrite (bind_Ok (lift_result (Ok _)) _ w1 w1 _) by reflexivity.
  rewrite np_div_same_length by (rewrite zip_with_length; congruence).
  rewrite (bind_Ok (lift_result (Ok _)) _ w1 w1 _) by reflexivity.
  unfold py_truediv.
  replace (completed_trials_a =? 0)%Z with false
    by (symmetry; apply Z.eqb_neq; lia).
  rewrite (bind_Ok (lift_result (Ok _)) _ w1 w1 _) by reflexivity.
  replace (completed_trials_b =? 0)%Z with false
    by (symmetry; apply Z.eqb_neq; lia).
  rewrite (bind_Ok (lift_result (Ok _)) _ w1 w1 _) by reflexivity.
  assert (Sw1 : self w1 = self w) by congruence.
  destruct (get_prob_reject_null_spec planned_trials_a planned_trials_b
              completed_trials_a completed_trials_b successes_a successes_b
              xa xb a w1)
    as (extra_a & extra_b & inner & w' & Erun & _);
    try (unfold valid_observation; lia);
    try (rewrite Sw1; first [split; assumption | assumption]);
    try assumption.
  rewrite (bind_Ok _ _ w1 w' _ Erun).
  eexists. eexists. reflexivity.
Qed.

(** ** Order of the two quantiles *)
















(** ** The marking test in the words of the specification *)





(** ** The claims about [get_prob_reject_null] and [analyze_experiment] *)

Lemma count_true_map {A} (f : A -> bool) (xs : list A) :
  count_true (map f xs) = length (filter f xs).
Proof.
  unfold count_true. induction xs as [|x xs IH]; simpl; [reflexivity|].
  destruct (f x); simpl; now rewrite IH.
Qed.

(** The value that [np.mean(rejection)] returns for the marks of the
    scenarios [inner]. *)
Lemma mean_of_marks (a : Q) (size : nat)
  (inner : list (list pyfloat * list pyfloat)) :
  length inner = size -> (1 <= size)%nat ->
  exists m,
    np_mean (map (fun d => float_of_bool (scenario_marked a d)) inner) = Fin m
    /\ m == fraction (length (filter (scenario_marked a) inner)) size
    /\ 0 <= m <= 1.
Proof.
  intros Hlen Hsize.
  rewrite <- (map_map (scenario_marked a) float_of_bool).
  destruct (np_mean_indicators (map (scenario_marked a) inner))
    as (m & Em & Hm & Hr).
  - rewrite length_map. lia.
  - exists m. rewrite length_map, count_true_map, Hlen in Hm. auto.
Qed.



(** C8.  For valid observations and [N >= 1], the values
    [probTestBeatsControl] and [probSignificanceAtEnd] that
    [analyze_experiment] returns lie in [[0, 1]]. *)
Theorem probabilities_in_unit_interval
  (planned_trials_a planned_trials_b
   completed_trials_a completed_trials_b
   successes_a successes_b : Z)
  (w w' : world) (r : AnalysisResult) :
  valid_observation planned_trials_a completed_trials_a successes_a ->
  valid_observation planned_trials_b completed_trials_b successes_b ->
  (1 <= mc_samples (self w))%nat ->
  analyze_experiment planned_trials_a planned_trials_b
                     completed_trials_a completed_trials_b
                     successes_a successes_b w = (Ok r, w') ->
  in_unit_interval (pr_b_gt_a r) /\ in_unit_interval (pr_reject_null r).
Proof.
  intros Va Vb HN E. unfold valid_observation in Va, Vb.
  destruct (analyze_experiment_Ok_inv planned_trials_a planned_trials_b
              completed_trials_a completed_trials_b successes_a successes_b
              w w' r)
    as (a & xa & xb & extra_a & extra_b & inner & Hrun);
    [lia | lia | exact HN | exact E |].
  destruct Hrun as (_ & _ & _ & _ & [Lxa _] & [Lxb _] & -> & _ & _ & _ & _
                    & _ & _ & Li & _).
  simpl. split.
  - unfold np_mean_bool, np_ge_zero.
    destruct (np_mean_indicators
                (map (fun x => fgeb x (Fin 0)) (lift_samples xa xb)))
      as (m & -> & _ & Hr); [|exact Hr].
    rewrite length_map. unfold lift_samples.
    rewrite !zip_with_length; try lia.
    rewrite zip_with_length; lia.
  - destruct (mean_of_marks a (mc_samples (self w)) inner Li HN)
      as (m & -> & _ & Hr). exact Hr.
Qed.

(** C9.  For valid observations with at least one completed trial in each
    arm, the [controlRate] and [testRate] that [analyze_experiment] returns
    are exactly [successes_a / completed_trials_a] and
    [successes_b / completed_trials_b], whatever the generator draws. *)
Theorem conversion_rates_exact
  (planned_trials_a planned_trials_b
   completed_trials_a completed_trials_b
   successes_a successes_b : Z)
  (w w' : world) (r : AnalysisResult) :
  valid_observation planned_trials_a completed_trials_a successes_a ->
  valid_observation planned_trials_b completed_trials_b successes_b ->
  (1 <= completed_trials_a)%Z -> (1 <= completed_trials_b)%Z ->
  analyze_experiment planned_trials_a planned_trials_b
                     completed_trials_a completed_trials_b
                     successes_a successes_b w = (Ok r, w') ->
  conversion_rate_a r
  = Fin (inject_Z successes_a / inject_Z completed_trials_a)
  /\ conversion_rate_b r
     = Fin (inject_Z successes_b / inject_Z completed_trials_b).
Proof.
  intros _ _ _ _ E. unfold analyze_experiment in E.
  peel E as ps w1 Eps.
  peel E as diff w2 Ediff. peel_pure Ediff.
  peel E as lift w3 Elift. peel_pure Elift.
  peel E as rate_a w4 Era. peel_pure Era.
  apply py_truediv_Ok_inv in Era as [_ ->].
  peel E as rate_b w5 Erb. peel_pure Erb.
  apply py_truediv_Ok_inv in Erb as [_ ->].
  peel E as p w6 Ep. peel_pure E.
  simpl. split; reflexivity.
Qed.

(** ** The configuration is a frame of every method *)

(** A sampler call that asked for [n] values and produced [n] values. *)
Definition call_has_size (n : nat) (c : call) : Prop :=
  match c with
  | BetaCall _ _ size out => size = n /\ length out = n
  | BinomialCall _ _ size out => size = n /\ length out = n
  end.

(** A computation that, run on an object configured for [n] samples, leaves
    the object as it is and only makes sampler calls of size [n], whether it
    returns or raises. *)
Definition keeps_configuration {A} (n : nat) (c : M A) : Prop :=
  forall w, mc_samples (self w) = n ->
    self (snd (c w)) = self w
    /\ exists new, trace (snd (c w)) = trace w ++ new
                   /\ Forall (call_has_size n) new.

Lemma keeps_ret {A} (n : nat) (a : A) : keeps_configuration n (ret a).
Proof.
  intros w _. simpl. split; [reflexivity|].
  exists []. rewrite app_nil_r. split; [reflexivity | constructor].
Qed.

Lemma keeps_lift_result {A} (n : nat) (r : result A) :
  keeps_configuration n (lift_result r).
Proof.
  intros w _. simpl. split; [reflexivity|].
  exists []. rewrite app_nil_r. split; [reflexivity | constructor].
Qed.

Lemma keeps_bind {A B} (n : nat) (c : M A) (k : A -> M B) :
  keeps_configuration n c -> (forall a, keeps_configuration n (k a)) ->
  keeps_configuration n (bind c k).
Proof.
  intros Hc Hk w Hn. unfold bind.
  destruct (Hc w Hn) as (Sc & new1 & Tc & Fc).
  destruct (c w) as [[a|e] w1]; simpl in *.
  - destruct (Hk a w1) as (Sk & new2 & Tk & Fk); [congruence|].
    split; [congruence|].
    exists (new1 ++ new2). split.
    + rewrite Tk, Tc. now rewrite app_assoc.
    + apply Forall_app. split; assumption.
  - split; [exact Sc|]. exists new1. split; assumption.
Qed.

Lemma keeps_bind_get_self {B} (n : nat) (k : ExperimentTerminator -> M B) :
  (forall slf, mc_samples slf = n -> keeps_configuration n (k slf)) ->
  keeps_configuration n (bind get_self k).
Proof.
  intros Hk w Hn. unfold bind, get_self. apply (Hk (self w) Hn w Hn).
Qed.

Lemma keeps_np_random_beta (a b : Z) (n : nat) :
  keeps_configuration n (np_random_beta a b n).
Proof.
  intros w _. unfold np_random_beta.
  destruct ((a <=? 0) || (b <=? 0))%Z.
  - simpl. split; [reflexivity|].
    exists []. rewrite app_nil_r. split; [reflexivity | constructor].
  - pose proof (beta_draws_length a b n (gen w)) as Hlen.
    destruct (beta_draws a b n (gen w)) as [xs g']. simpl in *.
    split; [reflexivity|]. eexists. split; [reflexivity|].
    constructor; [|constructor]. simpl. now rewrite length_map.
Qed.

Lemma broadcast_to_length {A} (xs ys : list A) (n : nat) :
  broadcast_to xs n = Some ys -> length ys = n.
Proof.
  unfold broadcast_to. destruct (Nat.eqb (length xs) n) eqn:E.
  - intros Es. injection Es as <-. now apply Nat.eqb_eq.
  - destruct xs as [|x [|x' xs]]; intros Es; try discriminate Es.
    injection Es as <-. apply repeat_length.
Qed.

Lemma keeps_np_random_binomial (k : Z) (p : list pyfloat) (n : nat) :
  keeps_configuration n (np_random_binomial k p n).
Proof.
  intros w _. unfold np_random_binomial.
  assert (Hnone : forall e : exn,
             self (snd (@Raise (list Z) e, w)) = self w
             /\ exists new, trace (snd (@Raise (list Z) e, w)) = trace w ++ new
                            /\ Forall (call_has_size n) new).
  { intros e. simpl. split; [reflexivity|].
    exists []. rewrite app_nil_r. split; [reflexivity | constructor]. }
  destruct (all_some (map valid_probability p)) as [ps|]; [|apply Hnone].
  destruct (k <? 0)%Z; [apply Hnone|].
  destruct (broadcast_to ps n) as [ps'|] eqn:Eb; [|apply Hnone].
  apply broadcast_to_length in Eb.
  pose proof (binomial_draws_length k ps' (gen w)) as Hlen.
  destruct (binomial_draws k ps' (gen w)) as [ks g']. simpl in *.
  split; [reflexivity|]. eexists. split; [reflexivity|].
  constructor; [|constructor]. simpl. split; [reflexivity | congruence].
Qed.

Lemma keeps_get_posterior_samples (n : nat)
  (completed_trials_a completed_trials_b successes_a successes_b : Z) :
  keeps_configuration n
    (get_posterior_samples completed_trials_a completed_trials_b
                           successes_a successes_b).
Proof.
  unfold get_posterior_samples.
  apply keeps_bind_get_self. intros slf1 <-.
  apply keeps_bind; [apply keeps_np_random_beta|]. intros xa.
  apply keeps_bind_get_self. intros slf2 ->.
  apply keeps_bind; [apply keeps_np_random_beta|]. intros xb.
  apply keeps_ret.
Qed.

Lemma keeps_rejection_step (n : nat)
  (planned_trials_a planned_trials_b : Z)
  (potential_successes_a potential_successes_b : list Z)
  (i : nat) (rejection : list pyfloat) :
  keeps_configuration n
    (rejection_step planned_trials_a planned_trials_b
                    potential_successes_a potential_successes_b
                    i rejection).
Proof.
  unfold rejection_step.
  apply keeps_bind; [apply keeps_lift_result|]. intros ps_a.
  apply keeps_bind_get_self. intros slf1 <-.
  apply keeps_bind; [apply keeps_np_random_beta|]. intros da.
  apply keeps_bind; [apply keeps_lift_result|]. intros ps_b.
  apply keeps_bind_get_self. intros slf2 ->.
  apply keeps_bind; [apply keeps_np_random_beta|]. intros db.
  apply keeps_bind; [apply keeps_lift_result|]. intros diffs.
  apply keeps_bind_get_self. intros slf3 _.
  apply keeps_bind; [apply keeps_lift_result|]. intros interval.
  apply keeps_bind; [apply keeps_lift_result|]. intros lo.
  apply keeps_bind; [apply keeps_lift_result|]. intros hi.
  destruct (interval_excludes_zero lo hi);
    [apply keeps_lift_result | apply keeps_ret].
Qed.

Lemma keeps_rejection_loop (n : nat)
  (planned_trials_a planned_trials_b : Z)
  (potential_successes_a potential_successes_b : list Z)
  (range : list nat) :
  forall rejection,
    keeps_configuration n
      (rejection_loop planned_trials_a planned_trials_b
                      potential_successes_a potential_successes_b
                      range rejection).
Proof.
  induction range as [|i range IH]; intros rejection; simpl.
  - apply keeps_ret.
  - apply keeps_bind; [apply keeps_rejection_step | exact IH].
Qed.

Lemma keeps_get_prob_reject_null (n : nat)
  (planned_trials_a planned_trials_b
   completed_trials_a completed_trials_b
   successes_a successes_b : Z)
  (posterior_samples_a posterior_samples_b : list pyfloat) :
  keeps_configuration n
    (get_prob_reject_null planned_trials_a planned_trials_b
                          completed_trials_a completed_trials_b
                          successes_a successes_b
                          posterior_samples_a posterior_samples_b).
Proof.
  unfold get_prob_reject_null.
  apply keeps_bind_get_self. intros slf1 <-.
  apply keeps_bind; [apply keeps_np_random_binomial|]. intros ka.
  apply keeps_bind_get_self. intros slf2 ->.
  apply keeps_bind; [apply keeps_np_random_binomial|]. intros kb.
  apply keeps_bind_get_self. intros slf3 _.
  apply keeps_bind_get_self. intros slf4 _.
  apply keeps_bind; [apply keeps_rejection_loop|]. intros rejection.
  apply keeps_ret.
Qed.

Lemma keeps_analyze_experiment (n : nat)
  (planned_trials_a planned_trials_b
   completed_trials_a completed_trials_b
   successes_a successes_b : Z) :
  keeps_configuration n
    (analyze_experiment planned_trials_a planned_trials_b
                        completed_trials_a completed_trials_b
                        successes_a successes_b).
Proof.
  unfold analyze_experiment.
  apply keeps_bind; [apply keeps_get_posterior_samples|]. intros ps.
  apply keeps_bind; [apply keeps_lift_result|]. intros diff.
  apply keeps_bind; [apply keeps_lift_result|]. intros lift.
  apply keeps_bind; [apply keeps_lift_result|]. intros rate_a.
  apply keeps_bind; [apply keeps_lift_result|]. intros rate_b.
  apply keeps_bind; [apply keeps_get_prob_reject_null|]. intros p.
  apply keeps_ret.
Qed.

Lemma analyze_experiment_lift_length
  (planned_trials_a planned_trials_b
   completed_trials_a completed_trials_b
   successes_a successes_b : Z)
  (w w' : world) (r : AnalysisResult) :
  analyze_experiment planned_trials_a planned_trials_b
                     completed_trials_a completed_trials_b
                     successes_a successes_b w = (Ok r, w') ->
  length (posterior_lift r) = mc_samples (self w).
Proof.
  intros E. unfold analyze_experiment in E.
  peel E as ps w1 Eps. destruct ps as [xa xb].
  apply get_posterior_samples_Ok_inv in Eps
    as (w0 & (Sa & Ta & La & Ra) & (Sb & Tb & Lb & Rb) & Hsa & Hsb).
  simpl fst in E. simpl snd in E.
  peel E as diff w2 Ediff. peel_pure Ediff.
  rewrite np_sub_same_length in Ediff by congruence. injection Ediff as <-.
  peel E as lift w3 Elift. peel_pure Elift.
  rewrite np_div_same_length in Elift
    by (rewrite zip_with_length; congruence).
  injection Elift as <-.
  peel E as rate_a w4 Era. peel_pure Era.
  peel E as rate_b w5 Erb. peel_pure Erb.
  peel E as p w6 Ep. peel_pure E.
  simpl. rewrite !zip_with_length; try congruence.
  rewrite zip_with_length; congruence.
Qed.

(** C10.  Whatever its arguments and whether it returns or raises,
    [analyze_experiment] leaves [mc_samples] and [alpha] as they were: after
    a call on a freshly constructed object they are still [5000] and [0.05].
    Every sampler call of the run asks for [mc_samples] values and gets an
    array of that length (the two posterior sample sets and every inner
    sample set), and so has the array of lift samples of a returning run. *)
Theorem configuration_unchanged
  (planned_trials_a planned_trials_b
   completed_trials_a completed_trials_b
   successes_a successes_b : Z)
  (w : world) :
  let out := analyze_experiment planned_trials_a planned_trials_b
                                completed_trials_a completed_trials_b
                                successes_a successes_b w in
  self (snd out) = self w
  /\ (self w = __init__ ->
      mc_samples (self (snd out)) = 5000%nat
      /\ alpha (self (snd out)) = Fin (5 # 100))
  /\ (exists new,
        trace (snd out) = trace w ++ new
        /\ Forall (call_has_size (mc_samples (self w))) new)
  /\ (forall r, fst out = Ok r ->
                length (posterior_lift r) = mc_samples (self w)).
Proof.
  intros out.
  destruct (keeps_analyze_experiment (mc_samples (self w))
              planned_trials_a planned_trials_b
              completed_trials_a completed_trials_b
              successes_a successes_b w eq_refl) as (S' & new & T' & F').
  fold out in S', T'.
  split; [exact S'|]. split; [|split].
  - intros Hinit. rewrite S', Hinit. split; reflexivity.
  - exists new. split; assumption.
  - intros r Hr. subst out.
    destruct (analyze_experiment _ _ _ _ _ _ w) as [res w'] eqn:E.
    simpl in Hr. subst res.
    apply (analyze_experiment_lift_length _ _ _ _ _ _ _ _ _ E).
Qed.


(** ** No remaining trials *)






(** ** Lift statistics *)








(** ** Division by a zero control draw *)









End EngineProperties.

(** * The theorems at concrete inputs, on the tape generator *)

Lemma get_posterior_samples_degenerate_witness :
  (0 <= 0 \/ 10 - 0 <= 0 \/ 5 <= 0 \/ 10 - 5 <= 0)%Z
  /\ fst (get_posterior_samples 10 10 0 5
            (Tape.start Tape.small Tape.sample_tape))
     = Raise ValueError.
Proof.
  split; [left; lia|].
  apply (get_posterior_samples_degenerate 10 10 0 5). left. lia.
Defined.

Lemma conversion_rates_exact_witness :
  exists r w',
    analyze_experiment 20 20 10 10 3 5
      (Tape.start Tape.small Tape.sample_tape) = (Ok r, w')
    /\ conversion_rate_a r = Fin (inject_Z 3 / inject_Z 10)
    /\ conversion_rate_b r = Fin (inject_Z 5 / inject_Z 10).
Proof.
  eexists. eexists. split; [vm_compute; reflexivity|].
  eapply (conversion_rates_exact 20 20 10 10 3 5
            (Tape.start Tape.small Tape.sample_tape)).
  - unfold valid_observation; lia.
  - unfold valid_observation; lia.
  - lia.
  - lia.
  - vm_compute; reflexivity.
Defined.

Lemma sample_run_returns :
  exists r w',
    analyze_experiment 20 20 10 10 3 5
      (Tape.start Tape.small Tape.sample_tape) = (Ok r, w').
Proof. eexists. eexists. vm_compute. reflexivity. Defined.

Lemma zero_run_returns :
  exists r w',
    analyze_experiment 20 20 10 10 1 5
      (Tape.start Tape.small Tape.zero_tape) = (Ok r, w').
Proof. eexists. eexists. vm_compute. reflexivity. Defined.

Lemma sample_observations_valid :
  valid_observation 20 10 3 /\ valid_observation 20 10 5.
Proof. unfold valid_observation. lia. Defined.




Lemma probabilities_in_unit_interval_witness :
  exists r w',
    analyze_experiment 20 20 10 10 3 5
      (Tape.start Tape.small Tape.sample_tape) = (Ok r, w')
    /\ in_unit_interval (pr_b_gt_a r) /\ in_unit_interval (pr_reject_null r).
Proof.
  destruct sample_run_returns as (r & w' & E).
  exists r, w'. split; [exact E|].
  apply (probabilities_in_unit_interval 20 20 10 10 3 5
           (Tape.start Tape.small Tape.sample_tape) w' r).
  - exact (proj1 sample_observations_valid).
  - exact (proj2 sample_observations_valid).
  - simpl. lia.
  - exact E.
Defined.






(** * Further properties of the methods *)

Section MethodProperties.

Context {G : Type} `{NumpyRandom G}.

Local Abbreviation world := (@world G).
Local Abbreviation M := (@M G).

(** ** When the methods return *)

(** [get_posterior_samples] returns exactly when both arms have at least one
    success and at least one failure; the two arrays it returns then have
    [mc_samples] entries each, all in [[0, 1]]. *)
Theorem get_posterior_samples_returns_iff
  (completed_trials_a completed_trials_b successes_a successes_b : Z)
  (w : world) :
  ((exists xa xb w',
      get_posterior_samples completed_trials_a completed_trials_b
                            successes_a successes_b w = (Ok (xa, xb), w'))
   <-> (0 < successes_a < completed_trials_a)%Z
       /\ (0 < successes_b < completed_trials_b)%Z)
  /\ (forall xa xb w',
        get_posterior_samples completed_trials_a completed_trials_b
                              successes_a successes_b w = (Ok (xa, xb), w') ->
        sample_set (self w) xa /\ sample_set (self w) xb).
Proof.
  split; [split|].
  - intros (xa & xb & w' & E).
    apply get_posterior_samples_Ok_inv in E as (w1 & _ & _ & Ha & Hb).
    split; assumption.
  - intros [Ha Hb]. apply get_posterior_samples_Ok; assumption.
  - intros xa xb w' E.
    apply get_posterior_samples_Ok_inv in E
      as (w1 & (_ & _ & La & Ra) & (_ & _ & Lb & Rb) & _ & _).
    split; split; assumption.
Qed.

(** With completed trials within the planned ones and at least one Monte
    Carlo sample, [analyze_experiment] returns exactly when both arms have
    at least one success and one failure and [alpha] is a finite value of
    [[0, 2]]; in every other case it raises. *)
Theorem analyze_experiment_returns_iff
  (planned_trials_a planned_trials_b
   completed_trials_a completed_trials_b
   successes_a successes_b : Z)
  (w : world) :
  (completed_trials_a <= planned_trials_a)%Z ->
  (completed_trials_b <= planned_trials_b)%Z ->
  (1 <= mc_samples (self w))%nat ->
  (exists r w',
     analyze_experiment planned_trials_a planned_trials_b
                        completed_trials_a completed_trials_b
                        successes_a successes_b w = (Ok r, w'))
  <-> (0 < successes_a < completed_trials_a)%Z
      /\ (0 < successes_b < completed_trials_b)%Z
      /\ usable_alpha (alpha (self w)).
Proof.
  intros Hpa Hpb HN. split.
  - intros (r & w' & E).
    destruct (analyze_experiment_Ok_inv planned_trials_a planned_trials_b
                completed_trials_a completed_trials_b successes_a successes_b
                w w' r Hpa Hpb HN E)
      as (a & xa & xb & extra_a & extra_b & inner & Hrun).
    destruct Hrun as (Ha & Hr & Hsa & Hsb & _).
    split; [exact Hsa | split; [exact Hsb|]]. exists a. auto.
  - intros (Hsa & Hsb & a & Ha & Hr).
    apply (analyze_experiment_Ok planned_trials_a planned_trials_b
             completed_trials_a completed_trials_b successes_a successes_b
             a w); assumption.
Qed.

(** ** The cost of a run *)



(** ** Arguments that [get_prob_reject_null] rejects *)

Lemma not_all_in_unit_interval (p : list pyfloat) :
  Exists (fun x => ~ in_unit_interval x) p ->
  all_some (map valid_probability p) = None.
Proof.
  intros Hex.
  destruct (all_some (map valid_probability p)) as [ps|] eqn:E;
    [|reflexivity].
  exfalso. apply all_some_valid_probability in E as [Ep Hps].
  assert (Hall : Forall in_unit_interval p)
    by (apply in_unit_interval_Fin; exists ps; auto).
  apply Exists_exists in Hex as (x & Hx & Hbad).
  exact (Hbad (proj1 (Forall_forall _ _) Hall x Hx)).
Qed.

Lemma all_some_length {A} (xs : list (option A)) (ys : list A) :
  all_some xs = Some ys -> length ys = length xs.
Proof.
  revert ys. induction xs as [|[x|] xs IH]; intros ys E; simpl in *.
  - injection E as <-. reflexivity.
  - destruct (all_some xs) as [zs|]; [|discriminate E].
    injection E as <-. simpl. now rewrite (IH zs eq_refl).
  - discriminate E.
Qed.

Lemma np_random_binomial_Raise (n : Z) (p : list pyfloat) (size : nat)
  (w : world) :
  (n < 0)%Z
  \/ Exists (fun x => ~ in_unit_interval x) p
  \/ (length p <> size /\ length p <> 1%nat) ->
  np_random_binomial n p size w = (Raise ValueError, w).
Proof.
  intros Hbad. unfold np_random_binomial.
  destruct (all_some (map valid_probability p)) as [ps|] eqn:E;
    [|reflexivity].
  destruct (n <? 0)%Z eqn:En; [reflexivity|].
  apply Z.ltb_ge in En.
  destruct Hbad as [Hn | [Hp | [Hl1 Hl2]]].
  - lia.
  - rewrite (not_all_in_unit_interval p Hp) in E. discriminate E.
  - apply all_some_length in E. rewrite length_map in E.
    unfold broadcast_to.
    replace (Nat.eqb (length ps) size) with false
      by (symmetry; apply Nat.eqb_neq; congruence).
    destruct ps as [|x [|y ps]]; simpl in *; try reflexivity.
    exfalso. apply Hl2. congruence.
Qed.

(** [get_prob_reject_null] raises [ValueError] without drawing anything when
    the control arm has more completed than planned trials, when its sample
    set holds a value outside [[0, 1]] (or infinite, or [nan]), or when the
    sample set has neither [mc_samples] entries nor a single one. *)
Theorem get_prob_reject_null_rejects_arguments
  (planned_trials_a planned_trials_b
   completed_trials_a completed_trials_b
   successes_a successes_b : Z)
  (posterior_samples_a posterior_samples_b : list pyfloat) (w : world) :
  (planned_trials_a < completed_trials_a)%Z
  \/ Exists (fun x => ~ in_unit_interval x) posterior_samples_a
  \/ (length posterior_samples_a <> mc_samples (self w)
      /\ length posterior_samples_a <> 1%nat) ->
  get_prob_reject_null planned_trials_a planned_trials_b
                       completed_trials_a completed_trials_b
                       successes_a successes_b
                       posterior_samples_a posterior_samples_b w
  = (Raise ValueError, w).
Proof.
  intros Hbad. unfold get_prob_reject_null.
  rewrite (bind_Ok get_self _ w w (self w)) by reflexivity.
  apply bind_Raise. apply np_random_binomial_Raise.
  destruct Hbad as [Hn | [Hp | Hl]]; [left; lia | auto | auto].
Qed.

(** ** No Monte Carlo samples *)

Lemma get_prob_reject_null_no_samples
  (planned_trials_a planned_trials_b
   completed_trials_a completed_trials_b
   successes_a successes_b : Z)
  (w : world) :
  mc_samples (self w) = 0%nat ->
  (completed_trials_a <= planned_trials_a)%Z ->
  (completed_trials_b <= planned_trials_b)%Z ->
  exists w',
    get_prob_reject_null planned_trials_a planned_trials_b
                         completed_trials_a completed_trials_b
                         successes_a successes_b [] [] w = (Ok NaN, w').
Proof.
  intros HN Hpa Hpb. unfold get_prob_reject_null.
  rewrite (bind_Ok get_self _ w w (self w)) by reflexivity.
  rewrite HN.
  destruct (np_random_binomial_Ok (planned_trials_a - completed_trials_a)
              [] 0 w) as (ka & w2 & E1 & S1 & T1 & L1 & R1);
    [lia | constructor | reflexivity |].
  rewrite (bind_Ok _ _ w w2 ka E1).
  rewrite (bind_Ok get_self _ w2 w2 (self w2)) by reflexivity.
  assert (Sw2 : self w2 = self w) by congruence. rewrite Sw2, HN.
  destruct (np_random_binomial_Ok (planned_trials_b - completed_trials_b)
              [] 0 w2) as (kb & w3 & E2 & S2 & T2 & L2 & R2);
    [lia | constructor | reflexivity |].
  rewrite (bind_Ok _ _ w2 w3 kb E2).
  rewrite (bind_Ok get_self _ w3 w3 (self w3)) by reflexivity.
  rewrite (bind_Ok get_self _ w3 w3 (self w3)) by reflexivity.
  assert (Sw3 : self w3 = self w) by congruence. rewrite Sw3, HN.
  simpl seq. simpl rejection_loop.
  rewrite (bind_Ok (ret _) _ w3 w3 _) by reflexivity.
  exists w3. reflexivity.
Qed.

(** An object configured for zero samples still returns on observations
    with a success and a failure in each arm: the lift array is empty,
    [expectedLift], [probTestBeatsControl] and [probSignificanceAtEnd] are
    all [nan] (means of empty arrays), whatever [alpha] is, and the rule of
    the application then displays that the experiment should not be
    terminated. *)
Theorem analyze_experiment_no_samples
  (planned_trials_a planned_trials_b
   completed_trials_a completed_trials_b
   successes_a successes_b : Z)
  (w : world) :
  mc_samples (self w) = 0%nat ->
  (0 < successes_a < completed_trials_a)%Z ->
  (0 < successes_b < completed_trials_b)%Z ->
  (completed_trials_a <= planned_trials_a)%Z ->
  (completed_trials_b <= planned_trials_b)%Z ->
  exists r w',
    analyze_experiment planned_trials_a planned_trials_b
                       completed_trials_a completed_trials_b
                       successes_a successes_b w = (Ok r, w')
    /\ posterior_lift r = []
    /\ expected_lift r = NaN
    /\ pr_b_gt_a r = NaN
    /\ pr_reject_null r = NaN
    /\ app_conclusion r = displayed ContinueNotYetTerminable.
Proof.
  intros HN Hsa Hsb Hpa Hpb. unfold analyze_experiment.
  destruct (get_posterior_samples_Ok completed_trials_a completed_trials_b
              successes_a successes_b w Hsa Hsb) as (xa & xb & w1 & Eps).
  rewrite (bind_Ok _ _ w w1 _ Eps).
  apply get_posterior_samples_Ok_inv in Eps
    as (w0 & (Sa & Ta & La & Ra) & (Sb & Tb & Lb & Rb) & _ & _).
  rewrite HN in La, Lb.
  apply length_zero_iff_nil in La, Lb. subst xa xb.
  simpl fst. simpl snd.
  change (np_sub [] []) with (@Ok (list pyfloat) []).
  rewrite (bind_Ok (lift_result (Ok _)) _ w1 w1 _) by reflexivity.
  change (np_div [] []) with (@Ok (list pyfloat) []).
  rewrite (bind_Ok (lift_result (Ok _)) _ w1 w1 _) by reflexivity.
  unfold py_truediv.
  replace (completed_trials_a =? 0)%Z with false
    by (symmetry; apply Z.eqb_neq; lia).
  rewrite (bind_Ok (lift_result (Ok _)) _ w1 w1 _) by reflexivity.
  replace (completed_trials_b =? 0)%Z with false
    by (symmetry; apply Z.eqb_neq; lia).
  rewrite (bind_Ok (lift_result (Ok _)) _ w1 w1 _) by reflexivity.
  assert (Sw1 : self w1 = self w) by congruence.
  destruct (get_prob_reject_null_no_samples planned_trials_a planned_trials_b
              completed_trials_a completed_trials_b successes_a successes_b
              w1) as (w' & Ep); [congruence | exact Hpa | exact Hpb |].
  rewrite (bind_Ok _ _ w1 w' _ Ep).
  eexists. eexists. split; [reflexivity|].
  repeat split; reflexivity.
Qed.

(** ** What the planned trials do not influence *)

Tactic Notation "unbind" hyp(E) "as" ident(a) ident(w1) ident(E1) :=
  apply bind_Ok_inv in E; destruct E as (a & w1 & E1 & E).

Ltac pure_step E :=
  match type of E with
  | lift_result _ _ = _ =>
      apply lift_result_inv in E; destruct E as [E ?]; subst
  | ret _ _ = _ =>
      apply ret_inv in E; destruct E as [E ?]; injection E as E; subst
  end.

(** What [analyze_experiment] returns beside [pr_reject_null], as a function
    of the posterior sample sets. *)
Lemma analyze_experiment_lift_part
  (planned_trials_a planned_trials_b
   completed_trials_a completed_trials_b
   successes_a successes_b : Z)
  (w w' : world) (r : AnalysisResult) :
  analyze_experiment planned_trials_a planned_trials_b
                     completed_trials_a completed_trials_b
                     successes_a successes_b w = (Ok r, w') ->
  exists xa xb w1,
    get_posterior_samples completed_trials_a completed_trials_b
                          successes_a successes_b w = (Ok (xa, xb), w1)
    /\ posterior_lift r = lift_samples xa xb
    /\ expected_lift r = np_mean (lift_samples xa xb)
    /\ pr_b_gt_a r = np_mean_bool (np_ge_zero (lift_samples xa xb))
    /\ conversion_rate_a r
       = Fin (inject_Z successes_a / inject_Z completed_trials_a)
    /\ conversion_rate_b r
       = Fin (inject_Z successes_b / inject_Z completed_trials_b).
Proof.
  intros E. unfold analyze_experiment in E.
  unbind E as ps w1 Eps. destruct ps as [xa xb].
  exists xa, xb, w1. split; [exact Eps|].
  apply get_posterior_samples_Ok_inv in Eps
    as (w0 & (Sa & Ta & La & Ra) & (Sb & Tb & Lb & Rb) & Hsa & Hsb).
  simpl fst in E. simpl snd in E.
  unbind E as diff w2 Ediff. pure_step Ediff.
  rewrite np_sub_same_length in Ediff by congruence. injection Ediff as <-.
  unbind E as lift w3 Elift. pure_step Elift.
  rewrite np_div_same_length in Elift
    by (rewrite zip_with_length; congruence).
  injection Elift as <-.
  unbind E as rate_a w4 Era. pure_step Era.
  apply py_truediv_Ok_inv in Era as [_ ->].
  unbind E as rate_b w5 Erb. pure_step Erb.
  apply py_truediv_Ok_inv in Erb as [_ ->].
  unbind E as p w6 Ep. pure_step E.
  simpl. repeat split; reflexivity.
Qed.

(** Two runs from the same state on the same completed trials and successes
    return the same conversion rates, the same lift samples, the same
    [expectedLift] and the same [probTestBeatsControl], whatever trials are
    planned: the planned trials only reach [probSignificanceAtEnd]. *)
Theorem planned_trials_reach_only_pr_reject_null
  (planned_trials_a planned_trials_b planned_trials_a' planned_trials_b'
   completed_trials_a completed_trials_b
   successes_a successes_b : Z)
  (w w1 w2 : world) (r1 r2 : AnalysisResult) :
  analyze_experiment planned_trials_a planned_trials_b
                     completed_trials_a completed_trials_b
                     successes_a successes_b w = (Ok r1, w1) ->
  analyze_experiment planned_trials_a' planned_trials_b'
                     completed_trials_a completed_trials_b
                     successes_a successes_b w = (Ok r2, w2) ->
  conversion_rate_a r1 = conversion_rate_a r2
  /\ conversion_rate_b r1 = conversion_rate_b r2
  /\ posterior_lift r1 = posterior_lift r2
  /\ expected_lift r1 = expected_lift r2
  /\ pr_b_gt_a r1 = pr_b_gt_a r2.
Proof.
  intros E1 E2.
  apply analyze_experiment_lift_part in E1
    as (xa & xb & v1 & Eps1 & L1 & M1 & P1 & A1 & B1).
  apply analyze_experiment_lift_part in E2
    as (xa' & xb' & v2 & Eps2 & L2 & M2 & P2 & A2 & B2).
  rewrite Eps1 in Eps2. injection Eps2 as <- <- <-.
  repeat split; congruence.
Qed.

(** ** The decision rule in numbers of scenarios *)



(** ** The only exception is [ValueError] *)

(** A computation that, on an object configured for [n] samples, either
    returns a value satisfying [P] and leaves the object configured for [n]
    samples, or raises [ValueError]. *)
Definition returns_or_ValueError {A} (n : nat) (P : A -> Prop) (c : M A)
  : Prop :=
  forall w, mc_samples (self w) = n ->
    match c w with
    | (Ok a, w') => P a /\ mc_samples (self w') = n
    | (Raise e, _) => e = ValueError
    end.

Lemma rv_ret {A} (n : nat) (P : A -> Prop) (a : A) :
  P a -> returns_or_ValueError n P (ret a).
Proof. intros Ha w Hn. simpl. auto. Qed.

Lemma rv_lift_Ok {A} (n : nat) (P : A -> Prop) (r : result A) (a : A) :
  r = Ok a -> P a -> returns_or_ValueError n P (lift_result r).
Proof. intros -> Ha w Hn. simpl. auto. Qed.

Lemma rv_bind {A B} (n : nat) (P : A -> Prop) (Q : B -> Prop)
  (c : M A) (k : A -> M B) :
  returns_or_ValueError n P c ->
  (forall a, P a -> returns_or_ValueError n Q (k a)) ->
  returns_or_ValueError n Q (bind c k).
Proof.
  intros Hc Hk w Hn. unfold bind. specialize (Hc w Hn).
  destruct (c w) as [[a|e] w1].
  - destruct Hc as [Ha Hn1]. apply (Hk a Ha w1 Hn1).
  - exact Hc.
Qed.

Lemma rv_bind_get_self {B} (n : nat) (Q : B -> Prop)
  (k : ExperimentTerminator -> M B) :
  (forall slf, mc_samples slf = n -> returns_or_ValueError n Q (k slf)) ->
  returns_or_ValueError n Q (bind get_self k).
Proof. intros Hk w Hn. unfold bind, get_self. apply (Hk (self w) Hn w Hn). Qed.

Lemma rv_np_random_beta (a b : Z) (n : nat) :
  returns_or_ValueError n
    (fun out => length out = n /\ (0 < a)%Z /\ (0 < b)%Z)
    (np_random_beta a b n).
Proof.
  intros w Hn.
  destruct (Z_lt_le_dec 0 a) as [Ha|Ha];
    [destruct (Z_lt_le_dec 0 b) as [Hb|Hb]|].
  - destruct (np_random_beta_Ok a b n w Ha Hb)
      as (out & w' & -> & S' & _ & L' & _).
    repeat split; try assumption. congruence.
  - rewrite np_random_beta_Raise by auto. reflexivity.
  - rewrite np_random_beta_Raise by auto. reflexivity.
Qed.

Lemma rv_np_random_binomial (k : Z) (p : list pyfloat) (n : nat) :
  returns_or_ValueError n (fun out => length out = n)
    (np_random_binomial k p n).
Proof.
  intros w Hn. unfold np_random_binomial.
  destruct (all_some (map valid_probability p)) as [ps|]; [|reflexivity].
  destruct (k <? 0)%Z; [reflexivity|].
  destruct (broadcast_to ps n) as [ps'|] eqn:Eb; [|reflexivity].
  apply broadcast_to_length in Eb.
  pose proof (binomial_draws_length k ps' (gen w)) as Hlen.
  destruct (binomial_draws k ps' (gen w)) as [ks g']. simpl in *.
  split; [congruence | exact Hn].
Qed.

Lemma getitem_in_range {A} (xs : list A) (i : nat) :
  (i < length xs)%nat -> exists x, getitem xs i = Ok x.
Proof.
  intros Hi. unfold getitem.
  destruct (nth_error xs i) as [x|] eqn:E; [now exists x|].
  apply nth_error_None in E. lia.
Qed.

Lemma list_set_length {A} (xs : list A) (i : nat) (v : A) :
  length (list_set xs i v) = length xs.
Proof.
  revert i. induction xs as [|x xs IH]; intros [|i]; simpl;
    try reflexivity. now rewrite IH.
Qed.

(** [np.quantile] on a non-empty array and two levels returns two values or
    raises [ValueError]. *)
Lemma np_quantile_two (arr : list pyfloat) (q1 q2 : pyfloat) :
  (1 <= length arr)%nat ->
  (exists lo hi, np_quantile arr [q1; q2] = Ok [lo; hi])
  \/ np_quantile arr [q1; q2] = Raise ValueError.
Proof.
  intros Hlen. unfold np_quantile. simpl map. simpl all_some.
  destruct (valid_quantile q1) as [r1|]; [|right; reflexivity].
  destruct (valid_quantile q2) as [r2|]; [|right; reflexivity].
  destruct arr as [|x arr]; [simpl in Hlen; lia|].
  left. destruct (existsb is_nan (x :: arr)); eexists; eexists; reflexivity.
Qed.

Lemma rv_rejection_step (n : nat)
  (planned_trials_a planned_trials_b : Z)
  (potential_successes_a potential_successes_b : list Z)
  (i : nat) (rejection : list pyfloat) :
  length potential_successes_a = n -> length potential_successes_b = n ->
  length rejection = n -> (i < n)%nat ->
  returns_or_ValueError n (fun rejection' => length rejection' = n)
    (rejection_step planned_trials_a planned_trials_b
                    potential_successes_a potential_successes_b
                    i rejection).
Proof.
  intros La Lb Lr Hi. unfold rejection_step.
  destruct (getitem_in_range potential_successes_a i) as [f_a Ea]; [lia|].
  destruct (getitem_in_range potential_successes_b i) as [f_b Eb]; [lia|].
  apply (rv_bind n (fun x => x = f_a));
    [apply (rv_lift_Ok n _ _ f_a Ea); reflexivity|]. intros ? ->.
  apply rv_bind_get_self. intros slf1 Hslf1. rewrite Hslf1.
  eapply rv_bind; [apply rv_np_random_beta|]. intros da (Lda & _ & _).
  apply (rv_bind n (fun x => x = f_b));
    [apply (rv_lift_Ok n _ _ f_b Eb); reflexivity|]. intros ? ->.
  apply rv_bind_get_self. intros slf2 Hslf2. rewrite Hslf2.
  eapply rv_bind; [apply rv_np_random_beta|]. intros db (Ldb & _ & _).
  apply (rv_bind n (fun d => length d = n));
    [eapply rv_lift_Ok;
       [apply np_sub_same_length; congruence
       | rewrite zip_with_length; congruence]|].
  intros diffs Ld.
  apply rv_bind_get_self. intros slf3 _.
  destruct (np_quantile_two diffs (fdiv (alpha slf3) (Fin 2))
              (fsub (Fin 1) (fdiv (alpha slf3) (Fin 2))))
    as [(lo & hi & Eq)|Eq]; [lia | |].
  - rewrite Eq.
    apply (rv_bind _ (fun x => x = [lo; hi]));
      [eapply rv_lift_Ok; reflexivity|]. intros ? ->.
    apply (rv_bind _ (fun x => x = lo));
      [eapply rv_lift_Ok; reflexivity|]. intros ? ->.
    apply (rv_bind _ (fun x => x = hi));
      [eapply rv_lift_Ok; reflexivity|]. intros ? ->.
    destruct (interval_excludes_zero lo hi).
    + eapply rv_lift_Ok.
      * unfold setitem.
        replace (i <? length rejection)%nat with true; [reflexivity|].
        symmetry. apply Nat.ltb_lt. lia.
      * rewrite list_set_length. exact Lr.
    + apply rv_ret. exact Lr.
  - rewrite Eq. intros w Hn. reflexivity.
Qed.

Lemma rv_rejection_loop (n : nat)
  (planned_trials_a planned_trials_b : Z)
  (potential_successes_a potential_successes_b : list Z)
  (range : list nat) :
  length potential_successes_a = n -> length potential_successes_b = n ->
  Forall (fun i => (i < n)%nat) range ->
  forall rejection,
    length rejection = n ->
    returns_or_ValueError n (fun rejection' => length rejection' = n)
      (rejection_loop planned_trials_a planned_trials_b
                      potential_successes_a potential_successes_b
                      range rejection).
Proof.
  intros La Lb Hrange.
  induction Hrange as [|i range Hi Hrange IH]; intros rejection Lr; simpl.
  - apply rv_ret. exact Lr.
  - eapply rv_bind; [apply rv_rejection_step; assumption|].
    intros rejection' Lr'. apply IH. exact Lr'.
Qed.

Lemma seq_below (n : nat) : Forall (fun i => (i < n)%nat) (seq 0 n).
Proof. apply Forall_forall. intros i Hi. apply in_seq in Hi. lia. Qed.

Lemma rv_get_prob_reject_null (n : nat)
  (planned_trials_a planned_trials_b
   completed_trials_a completed_trials_b
   successes_a successes_b : Z)
  (posterior_samples_a posterior_samples_b : list pyfloat) :
  returns_or_ValueError n (fun _ => True)
    (get_prob_reject_null planned_trials_a planned_trials_b
                          completed_trials_a completed_trials_b
                          successes_a successes_b
                          posterior_samples_a posterior_samples_b).
Proof.
  unfold get_prob_reject_null.
  apply rv_bind_get_self. intros slf1 Hslf1. rewrite Hslf1.
  eapply rv_bind; [apply rv_np_random_binomial|]. intros ka Lka.
  apply rv_bind_get_self. intros slf2 Hslf2. rewrite Hslf2.
  eapply rv_bind; [apply rv_np_random_binomial|]. intros kb Lkb.
  apply rv_bind_get_self. intros slf3 Hslf3.
  apply rv_bind_get_self. intros slf4 Hslf4.
  rewrite Hslf3, Hslf4.
  eapply rv_bind.
  - apply rv_rejection_loop.
    + rewrite length_map. exact Lka.
    + rewrite length_map. exact Lkb.
    + apply seq_below.
    + apply repeat_length.
  - intros rejection _. apply rv_ret. exact I.
Qed.

(** Whatever its arguments, the object and the generator, a run of
    [analyze_experiment] that does not return raises [ValueError]: the
    divisions of lines 121 and 122 never divide by zero (the sampler has
    rejected [completed_trials = 0] before) and no index is out of
    range. *)
Theorem analyze_experiment_raises_only_ValueError
  (planned_trials_a planned_trials_b
   completed_trials_a completed_trials_b
   successes_a successes_b : Z)
  (w : world) (e : exn) :
  fst (analyze_experiment planned_trials_a planned_trials_b
                          completed_trials_a completed_trials_b
                          successes_a successes_b w) = Raise e ->
  e = ValueError.
Proof.
  assert (Hrv : returns_or_ValueError (mc_samples (self w)) (fun _ => True)
                  (analyze_experiment planned_trials_a planned_trials_b
                     completed_trials_a completed_trials_b
                     successes_a successes_b)).
  { unfold analyze_experiment.
    apply (rv_bind _ (fun ps =>
             length (fst ps) = mc_samples (self w)
             /\ length (snd ps) = mc_samples (self w)
             /\ completed_trials_a <> 0%Z /\ completed_trials_b <> 0%Z)).
    - unfold get_posterior_samples.
      apply rv_bind_get_self. intros slf1 Hslf1. rewrite Hslf1.
      eapply rv_bind; [apply rv_np_random_beta|]. intros xa (La & Ha1 & Ha2).
      apply rv_bind_get_self. intros slf2 Hslf2. rewrite Hslf2.
      eapply rv_bind; [apply rv_np_random_beta|]. intros xb (Lb & Hb1 & Hb2).
      apply rv_ret. simpl. repeat split; try assumption; lia.
    - intros [xa xb] (La & Lb & Hca & Hcb). simpl in La, Lb. simpl fst. simpl snd.
      apply (rv_bind _ (fun d => length d = mc_samples (self w)));
        [eapply rv_lift_Ok;
           [apply np_sub_same_length; congruence
           | rewrite zip_with_length; congruence]|].
      intros diff Ld.
      apply (rv_bind _ (fun _ => True));
        [eapply rv_lift_Ok;
           [apply np_div_same_length; congruence | exact I]|].
      intros lift _.
      apply (rv_bind _ (fun _ => True)).
      { unfold py_truediv.
        replace (completed_trials_a =? 0)%Z with false
          by (symmetry; apply Z.eqb_neq; exact Hca).
        eapply rv_lift_Ok; [reflexivity | exact I]. }
      intros rate_a _.
      apply (rv_bind _ (fun _ => True)).
      { unfold py_truediv.
        replace (completed_trials_b =? 0)%Z with false
          by (symmetry; apply Z.eqb_neq; exact Hcb).
        eapply rv_lift_Ok; [reflexivity | exact I]. }
      intros rate_b _.
      eapply rv_bind; [apply rv_get_prob_reject_null|].
      intros p _. apply rv_ret. exact I. }
  specialize (Hrv w eq_refl). intros E.
  destruct (analyze_experiment _ _ _ _ _ _ w) as [[r|e'] w'];
    simpl in E; [discriminate E|].
  injection E as <-. exact Hrv.
Qed.

(** ** [probTestBeatsControl] compares the draws *)

Lemma lift_sign_of_draws (c t : pyfloat) :
  in_unit_interval c -> in_unit_interval t -> ~ feq c (Fin 0) ->
  fgeb (fdiv (fsub t c) c) (Fin 0) = fleb c t.
Proof.
  destruct c as [p| | |], t as [q| | |]; simpl; try contradiction.
  intros Hp Hq Hnz.
  destruct (Qeq_bool p 0) eqn:E0;
    [apply Qeq_bool_iff in E0; contradiction|].
  assert (Hpos : 0 < p) by lra.
  change (fgeb (Fin ((q + - p) / p)) (Fin 0) = fleb (Fin p) (Fin q)).
  destruct (fleb (Fin p) (Fin q)) eqn:El.
  - apply fleb_Fin in El. apply fgeb_Fin.
    apply Qle_shift_div_l; [exact Hpos | lra].
  - apply not_true_iff_false. apply not_true_iff_false in El.
    rewrite fgeb_Fin. rewrite fleb_Fin in El. intros Hge. apply El.
    assert (Hm : (q + - p) / p * p == q + - p) by (field; lra).
    nra.
Qed.

Lemma np_ge_zero_lift_samples (control test : list pyfloat) :
  Forall in_unit_interval control -> Forall in_unit_interval test ->
  Forall (fun c => ~ feq c (Fin 0)) control ->
  np_ge_zero (lift_samples control test) = zip_with fleb control test.
Proof.
  intros Hc. revert test.
  induction Hc as [|c control Hc1 Hc IH]; intros test Ht Hnz.
  - destruct test; reflexivity.
  - destruct Ht as [|t test Ht1 Ht]; [reflexivity|].
    inversion Hnz as [|? ? Hnz1 Hnz']; subst.
    unfold np_ge_zero, lift_samples in *. cbn [zip_with map].
    rewrite (lift_sign_of_draws c t Hc1 Ht1 Hnz1).
    f_equal. apply IH; assumption.
Qed.

(** When no control draw is zero, [probTestBeatsControl] is the fraction of
    the indices at which the test draw is at least the control draw. *)
Theorem pr_b_gt_a_compares_draws
  (planned_trials_a planned_trials_b
   completed_trials_a completed_trials_b
   successes_a successes_b : Z)
  (w w' : world) (r : AnalysisResult) (control test : list pyfloat)
  (rest : list call) :
  (completed_trials_a <= planned_trials_a)%Z ->
  (completed_trials_b <= planned_trials_b)%Z ->
  (1 <= mc_samples (self w))%nat ->
  analyze_experiment planned_trials_a planned_trials_b
                     completed_trials_a completed_trials_b
                     successes_a successes_b w = (Ok r, w') ->
  trace w' =
    trace w
    ++ BetaCall successes_a (completed_trials_a - successes_a)
                (mc_samples (self w)) control
    :: BetaCall successes_b (completed_trials_b - successes_b)
                (mc_samples (self w)) test
    :: rest ->
  Forall (fun c => ~ feq c (Fin 0)) control ->
  feq (pr_b_gt_a r)
      (Fin (fraction (count_true (zip_with fleb control test))
                     (mc_samples (self w)))).
Proof.
  intros Hpa Hpb HN E Htrace Hnz.
  destruct (analyze_experiment_Ok_inv planned_trials_a planned_trials_b
              completed_trials_a completed_trials_b successes_a successes_b
              w w' r Hpa Hpb HN E)
    as (a & xa & xb & extra_a & extra_b & inner & Hrun).
  destruct Hrun as (_ & _ & _ & _ & [Lxa Rxa] & [Lxb Rxb] & -> & _ & T' & _).
  rewrite T' in Htrace. apply app_inv_head in Htrace.
  injection Htrace as <- <- _.
  simpl. unfold np_mean_bool.
  rewrite (np_ge_zero_lift_samples xa xb Rxa Rxb Hnz).
  destruct (np_mean_indicators (zip_with fleb xa xb)) as (m & -> & Hm & _).
  - rewrite zip_with_length; lia.
  - simpl. rewrite Hm, zip_with_length by congruence. now rewrite Lxa.
Qed.

End MethodProperties.

(** * The further properties at concrete inputs *)

Lemma analyze_experiment_returns_iff_witness :
  (10 <= 20)%Z /\ (1 <= 3)%nat
  /\ ((exists r w',
         analyze_experiment 20 20 10 10 3 5
           (Tape.start Tape.small Tape.sample_tape) = (Ok r, w'))
      <-> (0 < 3 < 10)%Z /\ (0 < 5 < 10)%Z
          /\ usable_alpha (alpha Tape.small)).
Proof.
  split; [lia|]. split; [lia|].
  apply (analyze_experiment_returns_iff 20 20 10 10 3 5
           (Tape.start Tape.small Tape.sample_tape)).
  - lia.
  - lia.
  - simpl. lia.
Defined.


Lemma get_prob_reject_null_rejects_arguments_witness :
  (10 < 20)%Z
  /\ get_prob_reject_null 10 20 20 10 3 5
       Tape.control_samples Tape.test_samples
       (Tape.start Tape.small Tape.sample_tape)
     = (Raise ValueError, Tape.start Tape.small Tape.sample_tape).
Proof.
  split; [lia|].
  apply (get_prob_reject_null_rejects_arguments 10 20 20 10 3 5).
  left. lia.
Defined.

Lemma analyze_experiment_no_samples_witness :
  exists r w',
    analyze_experiment 20 20 10 10 3 5
      (Tape.start {| mc_samples := 0; alpha := NaN |} Tape.sample_tape)
    = (Ok r, w')
    /\ pr_reject_null r = NaN
    /\ app_conclusion r = displayed ContinueNotYetTerminable.
Proof.
  destruct (analyze_experiment_no_samples 20 20 10 10 3 5
              (Tape.start {| mc_samples := 0; alpha := NaN |}
                          Tape.sample_tape))
    as (r & w' & E & _ & _ & _ & Ep & Ec).
  - reflexivity.
  - lia.
  - lia.
  - lia.
  - lia.
  - exists r, w'. split; [exact E | split; [exact Ep | exact Ec]].
Defined.

Lemma other_plan_returns :
  exists r w',
    analyze_experiment 30 40 10 10 3 5
      (Tape.start Tape.small Tape.sample_tape) = (Ok r, w').
Proof. eexists. eexists. vm_compute. reflexivity. Defined.

Lemma planned_trials_reach_only_pr_reject_null_witness :
  exists r1 w1 r2 w2,
    analyze_experiment 20 20 10 10 3 5
      (Tape.start Tape.small Tape.sample_tape) = (Ok r1, w1)
    /\ analyze_experiment 30 40 10 10 3 5
         (Tape.start Tape.small Tape.sample_tape) = (Ok r2, w2)
    /\ posterior_lift r1 = posterior_lift r2
    /\ pr_b_gt_a r1 = pr_b_gt_a r2.
Proof.
  destruct sample_run_returns as (r1 & w1 & E1).
  destruct other_plan_returns as (r2 & w2 & E2).
  destruct (planned_trials_reach_only_pr_reject_null 20 20 30 40 10 10 3 5
              (Tape.start Tape.small Tape.sample_tape) w1 w2 r1 r2 E1 E2)
    as (_ & _ & Hl & _ & Hp).
  exists r1, w1, r2, w2.
  split; [exact E1 | split; [exact E2 | split; [exact Hl | exact Hp]]].
Defined.


Lemma analyze_experiment_raises_only_ValueError_witness :
  fst (analyze_experiment 20 20 0 10 0 5
         (Tape.start Tape.small Tape.sample_tape)) = Raise ValueError
  /\ ValueError = ValueError.
Proof.
  split; [vm_compute; reflexivity|].
  apply (analyze_experiment_raises_only_ValueError 20 20 0 10 0 5
           (Tape.start Tape.small Tape.sample_tape) ValueError).
  vm_compute. reflexivity.
Defined.

Lemma pr_b_gt_a_compares_draws_witness :
  exists r w' rest,
    analyze_experiment 20 20 10 10 3 5
      (Tape.start Tape.small Tape.sample_tape) = (Ok r, w')
    /\ trace w' = BetaCall 3 (10 - 3) 3 Tape.control_samples
                  :: BetaCall 5 (10 - 5) 3 Tape.test_samples :: rest
    /\ feq (pr_b_gt_a r)
           (Fin (fraction
                   (count_true
                      (zip_with fleb Tape.control_samples Tape.test_samples))
                   3)).
Proof.
  assert (Hrun : exists r w' rest,
             analyze_experiment 20 20 10 10 3 5
               (Tape.start Tape.small Tape.sample_tape) = (Ok r, w')
             /\ trace w' = BetaCall 3 (10 - 3) 3 Tape.control_samples
                           :: BetaCall 5 (10 - 5) 3 Tape.test_samples
                           :: rest).
  { eexists. eexists. eexists. split; vm_compute; reflexivity. }
  destruct Hrun as (r & w' & rest & E & T').
  exists r, w', rest. split; [exact E | split; [exact T'|]].
  apply (pr_b_gt_a_compares_draws 20 20 10 10 3 5
           (Tape.start Tape.small Tape.sample_tape) w' r
           Tape.control_samples Tape.test_samples rest).
  - lia.
  - lia.
  - simpl. lia.
  - exact E.
  - exact T'.
  - unfold Tape.control_samples.
    repeat constructor; simpl; intros Hz; discriminate Hz.
Defined.
